(** * Fabric's command-line front end ([fabric/main.py])

    A shallow embedding of the four procedures of [fabric/main.py] that carry
    the parsing and discovery logic of the [fab] program:

    - [load_settings]    reads a [key=value] settings file,
    - [find_fabfile]     walks from the working directory towards the root,
    - [load_fabfile]     imports a fabfile and collects its callables,
    - [parse_arguments]  turns command-line tokens into invocation tuples.

    Python [str] values are 8-bit strings ([string]), a [dict] with string
    keys is a [gmap string _], a [list] is a [list].  A call that may raise
    returns a [result]; the interpreter state a procedure changes
    ([sys.path]) is threaded explicitly; a global name a procedure reads
    is looked up in the bindings of the module, and raises [NameError]
    when the module has none for it. *)

From Stdlib Require Import Ascii.
From stdpp Require Import base option list gmap strings.

(** ** Outcomes of a Python call *)

Inductive exn : Type :=
  | NameError
  | KeyError
  | ValueError
  | TypeError
  | IndexError
  | IOError
  | ImportError
  | SyntaxError.

Inductive result (A : Type) : Type :=
  | Ok (a : A)
  | Raise (e : exn).

Arguments Ok {A} a.
Arguments Raise {A} e.

#[global] Instance result_ret : MRet result := fun _ a => Ok a.

#[global] Instance result_bind : MBind result := fun _ _ f m =>
  match m with
  | Ok a => f a
  | Raise e => Raise e
  end.

(** [for x in xs: st = body(st, x)], stopping at the first exception. *)
Fixpoint for_each {A St : Type} (body : St -> A -> result St) (xs : list A) (st : St)
  : result St :=
  match xs with
  | [] => Ok st
  | x :: xs' => st' ← body st x; for_each body xs' st'
  end.

(** ** The [str] methods the module uses

    Every separator in [main.py] is a one-character string ([':'], [','],
    ['='], [';'], ['#']), so the separator is an [ascii]. *)

Module PyStr.

(** Truth value of a string: [''] is false, anything else is true. *)
Definition truthy (s : string) : bool :=
  match s with
  | EmptyString => false
  | String _ _ => true
  end.

(** [sep in s] *)
Fixpoint contains (sep : ascii) (s : string) : bool :=
  match s with
  | EmptyString => false
  | String a s' => if Ascii.eqb a sep then true else contains sep s'
  end.

(** [s.startswith(c)] *)
Definition startswith (c : ascii) (s : string) : bool :=
  match s with
  | EmptyString => false
  | String a _ => Ascii.eqb a c
  end.

(** [s.partition(sep)]: [(head, sep, tail)] around the first [sep], or
    [(s, '', '')] when [sep] does not occur. *)
Fixpoint str_partition (s : string) (sep : ascii) : string * string * string :=
  match s with
  | EmptyString => (EmptyString, EmptyString, EmptyString)
  | String a s' =>
      if Ascii.eqb a sep then (EmptyString, String sep EmptyString, s')
      else let '(h, m, t) := str_partition s' sep in (String a h, m, t)
  end.

(** [s.split(sep)]: the pieces between all occurrences of [sep]; never
    empty, [''.split(sep) == ['']]. *)
Fixpoint split (s : string) (sep : ascii) : list string :=
  match s with
  | EmptyString => [EmptyString]
  | String a s' =>
      if Ascii.eqb a sep then EmptyString :: split s' sep
      else match split s' sep with
           | h :: t => String a h :: t
           | [] => [String a EmptyString]
           end
  end.

(** [s.split(sep, 1)]: at most one cut, at the first [sep]. *)
Fixpoint split1 (s : string) (sep : ascii) : list string :=
  match s with
  | EmptyString => [EmptyString]
  | String a s' =>
      if Ascii.eqb a sep then [EmptyString; s']
      else match split1 s' sep with
           | h :: t => String a h :: t
           | [] => [String a EmptyString]
           end
  end.

(** [sep.join(pieces)] *)
Fixpoint join (sep : ascii) (pieces : list string) : string :=
  match pieces with
  | [] => EmptyString
  | [p] => p
  | p :: ps => p +:+ String sep (join sep ps)
  end.

(** The bytes [str.strip()] removes: space, and tab .. carriage return. *)
Definition isspace (a : ascii) : bool :=
  let n := nat_of_ascii a in
  Nat.eqb n 32 || (Nat.leb 9 n && Nat.leb n 13).

Fixpoint lstrip (s : string) : string :=
  match s with
  | EmptyString => EmptyString
  | String a s' => if isspace a then lstrip s' else s
  end.

Fixpoint rstrip (s : string) : string :=
  match s with
  | EmptyString => EmptyString
  | String a s' =>
      match rstrip s' with
      | EmptyString => if isspace a then EmptyString else String a EmptyString
      | r => String a r
      end
  end.

(** [s.strip()] *)
Definition strip (s : string) : string := rstrip (lstrip s).

End PyStr.

Import PyStr.

(** ** [state.py]: the shared environment dictionary *)

Definition env : gmap string string :=
  <["settings_file" := ".fabricrc"]> (<["version" := "0.2.0"]> ∅).

(** [dict(pairs)]: pairs are inserted left to right, so a later pair
    overrides an earlier one with the same key. *)
Definition dict {V : Type} (pairs : list (string * V)) : gmap string V :=
  fold_left (fun m kv => <[kv.1 := kv.2]> m) pairs ∅.

(** ** [load_settings] *)

(** What a path names.  [os.path.exists] holds of both kinds; only a regular
    file can be opened for reading. *)
Inductive node : Type :=
  | File (content : string)
  | Directory.

(** Iterating over an open text file yields its lines, each with its
    terminating newline (the last line may lack one). *)
Fixpoint file_lines (content : string) : list string :=
  match content with
  | EmptyString => []
  | String a rest =>
      if Ascii.eqb a "010"%char then String a EmptyString :: file_lines rest
      else match file_lines rest with
           | [] => [String a EmptyString]
           | l :: ls => String a l :: ls
           end
  end.

(** [open(path, 'r')] *)
Definition open_read (fs : gmap string node) (path : string) : result (list string) :=
  match fs !! path with
  | Some (File content) => Ok (file_lines content)
  | Some Directory => Raise IOError
  | None => Raise IOError
  end.

(** [comments = lambda s: s and not s.startswith("#")] *)
Definition comments (s : string) : bool :=
  truthy s && negb (startswith "#" s).

(** The pair a kept line contributes: [(k.strip(), v.strip())] for
    [k, _, v = s.partition('=')]. *)
Definition setting_of_line (s : string) : string * string :=
  let '(k, _, v) := str_partition s "=" in (strip k, strip v).

(** [load_settings(path)].  The function has no [else] branch: for a path
    that does not exist it falls off its end and returns [None]. *)
Definition load_settings (fs : gmap string node) (path : string)
  : result (option (gmap string string)) :=
  match fs !! path with
  | Some _ =>
      lines ← open_read fs path;
      let settings := List.filter comments lines in
      Ok (Some (dict (map setting_of_line settings)))
  | None => Ok None
  end.

(** [d.update(other)] as [main] calls it on the value of [load_settings]:
    [None] is not iterable. *)
Definition dict_update (d : gmap string string) (other : option (gmap string string))
  : result (gmap string string) :=
  match other with
  | Some m => Ok (m ∪ d)
  | None => Raise TypeError
  end.

(** The statement [env.update(load_settings(rc_path()))] of [main], for the
    settings path [rc] that [rc_path()] computes. *)
Definition main_load_settings (fs : gmap string node) (rc : string)
  (e : gmap string string) : result (gmap string string) :=
  loaded ← load_settings fs rc;
  dict_update e loaded.

(** ** [find_fabfile]

    A path is the list of its components; an absolute path starts at the
    root, which is the empty list.  The file system is the set of absolute
    paths that exist, and has no symbolic links: the directory the system
    reaches through ['..'] is the one [os.path.normpath] computes. *)

Section FindFabfile.

Variable fs : gset (list string).
(** [os.getcwd()], as an absolute path *)
Variable cwd : list string.

(** [os.path.normpath] of an absolute path: [''] and ['.'] components are
    dropped, ['..'] removes the component before it and is dropped at the
    root. *)
Definition normpath_step (acc : list string) (comp : string) : list string :=
  if bool_decide (comp = "") || bool_decide (comp = ".") then acc
  else if bool_decide (comp = "..") then removelast acc
  else acc ++ [comp].

(** [os.path.abspath(path)], that is [normpath(join(os.getcwd(), path))] *)
Definition abspath (path : list string) : list string :=
  fold_left normpath_step (cwd ++ path) [].

(** [os.path.split(p)[1]] of a normalised absolute path: its last
    component, [''] for the root. *)
Definition basename (p : list string) : string := List.last p "".

(** [os.path.exists(path)] for a path relative to the working directory *)
Definition path_exists (path : list string) : bool :=
  bool_decide (abspath path ∈ fs).

Definition guesses : list string := ["fabfile.py"; "Fabfile.py"].

(** The [while] loop, [path] being the loop variable.  [None] means the
    fuel ran out; [Some r] that the function returned [r]. *)
Fixpoint find_fabfile_loop (fuel : nat) (path : list string)
  : option (option (list string)) :=
  match fuel with
  | O => None
  | S fuel' =>
      if truthy (basename (abspath path)) then
        let found := List.filter (fun x => path_exists (path ++ [x])) guesses in
        match found with
        | g :: _ => Some (Some (abspath (path ++ [g])))
        | [] => find_fabfile_loop fuel' (".." :: path)
        end
      else Some None
  end.

(** [find_fabfile()]: the loop entered with [path = '.'].  Each round
    removes one component of the directory examined, so one round per
    component of [cwd] and a last test of the condition suffice. *)
Definition find_fabfile : option (option (list string)) :=
  find_fabfile_loop (S (length cwd)) ["."].

End FindFabfile.

(** ** [load_fabfile] *)

(** [os.path.split] of [posixpath]: cut after the last ['/'], then remove
    the trailing slashes of the head unless it consists of slashes only. *)
Fixpoint cut_last_slash (p : string) : string * string :=
  match p with
  | EmptyString => (EmptyString, EmptyString)
  | String a rest =>
      let '(h, t) := cut_last_slash rest in
      if truthy h then (String a h, t)
      else if Ascii.eqb a "/"%char then (String a EmptyString, t)
      else (EmptyString, String a t)
  end.

Fixpoint all_slashes (s : string) : bool :=
  match s with
  | EmptyString => true
  | String a rest => Ascii.eqb a "/"%char && all_slashes rest
  end.

Fixpoint rstrip_slashes (s : string) : string :=
  match s with
  | EmptyString => EmptyString
  | String a rest =>
      match rstrip_slashes rest with
      | EmptyString => if Ascii.eqb a "/"%char then EmptyString else String a EmptyString
      | r => String a r
      end
  end.

Definition os_path_split (p : string) : string * string :=
  let '(head, tail) := cut_last_slash p in
  if truthy head && negb (all_slashes head) then (rstrip_slashes head, tail)
  else (head, tail).

(** A top-level binding of an imported module: whether [callable] holds of
    it, and a tag telling the objects apart. *)
Record pyobject : Type := PyObject { is_callable : bool; object_id : nat }.

(** [dict(filter(lambda x: callable(x[1]), vars(imported).items()))] *)
Definition callables (imported : list (string * pyobject)) : gmap string pyobject :=
  dict (List.filter (fun x => is_callable x.2) imported).

(** [(p[:i], p[i+1:])] for [i = p.rfind(c)], when [c] occurs in [p]. *)
Fixpoint rcut (c : ascii) (p : string) : option (string * string) :=
  match p with
  | EmptyString => None
  | String a rest =>
      match rcut c rest with
      | Some (h, t) => Some (String a h, t)
      | None => if Ascii.eqb a c then Some (EmptyString, rest) else None
      end
  end.

Fixpoint all_dots (s : string) : bool :=
  match s with
  | EmptyString => true
  | String a rest => Ascii.eqb a "."%char && all_dots rest
  end.

(** [os.path.splitext(p)[0]] of [posixpath]: the extension starts at the
    last dot, provided that dot lies in the file name and after a character
    of it that is not a dot. *)
Definition splitext_root (p : string) : string :=
  match rcut "." p with
  | None => p
  | Some (root, ext) =>
      if contains "/" ext then p
      else
        let fname := match rcut "/" root with
                     | Some (_, f) => f
                     | None => root
                     end in
        if all_dots fname then p else root
  end.

Section LoadFabfile.

(** [__import__(name)]: it runs arbitrary user code with the current
    [sys.path], may change [sys.path], and returns the module's bindings
    or raises. *)
Variable import_ : string -> list string -> list string * result (list (string * pyobject)).

(** [load_fabfile(path)] run with [sys.path = sys_path]; the first
    component of the value is [sys.path] when the call ends. *)
Definition load_fabfile (path : string) (sys_path : list string)
  : list string * result (gmap string pyobject) :=
  let '(directory, fabfile) := os_path_split path in
  let '(sys_path1, added_to_path) :=
    if bool_decide (directory ∈ sys_path) then (sys_path, false)
    else (directory :: sys_path, true) in
  match import_ (splitext_root fabfile) sys_path1 with
  | (sys_path2, Raise e) => (sys_path2, Raise e)
  | (sys_path2, Ok imported) =>
      if added_to_path then
        match sys_path2 with
        | [] => ([], Raise IndexError)
        | _ :: sys_path3 => (sys_path3, Ok (callables imported))
        end
      else (sys_path2, Ok (callables imported))
  end.

End LoadFabfile.

(** ** [parse_arguments] *)

(** The tuple [(cmd, cmd_args, cmd_kwargs, cmd_hosts)] appended per token. *)
Definition invocation : Type :=
  string * list string * gmap string string * list string.

(** The two global names that [parse_arguments] reads, with what the module
    has them bound to when the function runs, if anything. *)
Record namespace : Type := Namespace {
  ns_partition : option (string -> ascii -> string * string * string);
  ns_ENV : option (gmap string string)
}.

(** [main.py] as it is written.  It imports [OptionParser], [os], [sys],
    [abort], [commands], [env] and [win32] and defines its own functions;
    it binds neither [partition] nor [ENV] ([state.py] exports the
    lower-case [env]), and neither is a built-in name. *)
Definition main_py : namespace := Namespace None None.

(** Reading a global name: the value it is bound to, [NameError] when it
    is not bound. *)
Definition load_global {A : Type} (binding : option A) : result A :=
  match binding with
  | Some value => Ok value
  | None => Raise NameError
  end.

Section ParseArguments.

(** The namespace of the module *)
Variable globals : namespace.

(** [format % mapping] on strings *)
Variable str_mod : string -> gmap string string -> result string.

(** The body of [for cmd_arg_kv in cmd_str_args.split(',')], acting on
    [(cmd_args, cmd_kwargs, cmd_hosts)]. *)
Definition parse_cmd_arg (st : list string * gmap string string * list string)
  (cmd_arg_kv : string) : result (list string * gmap string string * list string) :=
  let '(cmd_args, cmd_kwargs, cmd_hosts) := st in
  partition ← load_global (ns_partition globals);
  let '(k, _, v) := partition cmd_arg_kv "="%char in
  if truthy v then
    if bool_decide (k ∈ ["host"; "hosts"]) then
      if bool_decide (k = "host") then
        Ok (cmd_args, cmd_kwargs, [strip v])
      else if bool_decide (k = "hosts") then
        Ok (cmd_args, cmd_kwargs, map strip (split v ";"))
      else Ok (cmd_args, cmd_kwargs, cmd_hosts)
    else
      ENV ← load_global (ns_ENV globals);
      r ← str_mod v ENV;
      Ok (cmd_args, <[k := if truthy r then r else k]> cmd_kwargs, cmd_hosts)
  else Ok (cmd_args ++ [k], cmd_kwargs, cmd_hosts).

(** The body of [for cmd in args]: the tuple built for one token. *)
Definition parse_cmd (cmd : string) : result invocation :=
  if contains ":" cmd then
    match split1 cmd ":" with
    | [cmd'; cmd_str_args] =>
        st ← for_each parse_cmd_arg (split cmd_str_args ",") ([], ∅, []);
        let '(cmd_args, cmd_kwargs, cmd_hosts) := st in
        Ok (cmd', cmd_args, cmd_kwargs, cmd_hosts)
    | _ => Raise ValueError
    end
  else Ok (cmd, [], ∅, []).

(** [parse_arguments(args)] *)
Definition parse_arguments (args : list string) : result (list invocation) :=
  for_each (fun cmds cmd => inv ← parse_cmd cmd; Ok (cmds ++ [inv])) args [].

End ParseArguments.

(** ** [state.py]: [_AttributeDict] *)

Section AttributeDict.

Context {V : Type}.

(** The truth value of a stored object. *)
Variable truth : V -> bool.

(** [__getattr__(self, key)]: [return self[key]] *)
Definition __getattr__ (self : gmap string V) (key : string) : result V :=
  match self !! key with
  | Some value => Ok value
  | None => Raise KeyError
  end.

(** [__setattr__(self, key, value)]: [self[key] = value] *)
Definition __setattr__ (self : gmap string V) (key : string) (value : V)
  : gmap string V :=
  <[key := value]> self.

(** [first(self, *names)].  [self.get(name)] is [None], which is false, for
    a name that is no key; the function falls off its end, returning
    [None], when no name gives a true value. *)
Fixpoint first (self : gmap string V) (names : list string) : option V :=
  match names with
  | [] => None
  | name :: names' =>
      match self !! name with
      | Some value => if truth value then Some value else first self names'
      | None => first self names'
      end
  end.

End AttributeDict.

(** ** [list_commands] *)

(** [s.splitlines()]: the lines of [s] without their line breaks, a line
    break being a line feed, a carriage return, or the two in a row. *)
Fixpoint splitlines (s : string) : list string :=
  match s with
  | EmptyString => []
  | String a rest =>
      if Ascii.eqb a "010"%char then EmptyString :: splitlines rest
      else if Ascii.eqb a "013"%char then
        EmptyString ::
          match rest with
          | String b rest' =>
              if Ascii.eqb b "010"%char then splitlines rest' else splitlines rest
          | EmptyString => []
          end
      else match splitlines rest with
           | [] => [String a EmptyString]
           | l :: ls => String a l :: ls
           end
  end.

Fixpoint spaces (n : nat) : string :=
  match n with
  | O => EmptyString
  | S n' => String " "%char (spaces n')
  end.

(** [s.ljust(width)] *)
Definition ljust (s : string) (width : nat) : string :=
  s +:+ spaces (width - String.length s).

(** How a call ends that does not return: with an exception, or with
    [SystemExit] and its code. *)
Inductive raised : Type :=
  | Exception (e : exn)
  | SystemExit (code : nat).

(** [reduce(lambda a, b: max(a, len(b)), keys, 0)] *)
Definition max_len (keys : list string) : nat :=
  fold_left (fun a b => Nat.max a (String.length b)) keys 0.

Section ListCommands.

(** [func.__doc__]: [None] or a string *)
Variable doc : pyobject -> option string.

(** The body of the loop of [list_commands]: the line printed for one
    command. *)
Definition command_line (width : nat) (name : string) (func : pyobject) : result string :=
  let prefix := "  " +:+ ljust name width in
  match doc func with
  | Some d =>
      if truthy d then
        let lines := List.filter truthy (splitlines d) in
        match lines with
        | l :: _ => Ok (prefix +:+ "  " +:+ strip l)
        | [] => Raise IndexError
        end
      else Ok prefix
  | None => Ok prefix
  end.

(** The loop of [list_commands], [out] being what has been printed. *)
Fixpoint print_commands (width : nat) (items : list (string * pyobject))
    (out : list string) : list string * result unit :=
  match items with
  | [] => (out, Ok tt)
  | (name, func) :: items' =>
      match command_line width name func with
      | Ok line => print_commands width items' (out ++ [line])
      | Raise e => (out, Raise e)
      end
  end.

(** [list_commands()], for [commands.items()] in the order the dictionary
    yields them.  The value is what was printed, one entry per [print],
    and how the call ended. *)
Definition list_commands (items : list (string * pyobject)) : list string * raised :=
  let out := ["Available commands:
"] in
  let width := max_len (map fst items) in
  match print_commands width items out with
  | (out', Ok _) => (out', SystemExit 0)
  | (out', Raise e) => (out', Exception e)
  end.

End ListCommands.

(** ** [rc_path] and [main] *)

Module Options.

(** The option values [parse_options()] returns. *)
Record t : Type := { show_version : bool; list_commands : bool }.

End Options.

(** What [main] writes: a line on standard output, or the traceback that
    [sys.excepthook] prints for an exception. *)
Inductive event : Type :=
  | Stdout (text : string)
  | Excepthook (e : exn).

(** The module-level state [main] changes. *)
Record state : Type := State {
  st_env : gmap string string;
  st_commands : gmap string pyobject;
  st_sys_path : list string
}.

(** How the body of the [try] statement ends. *)
Inductive outcome : Type :=
  | Returned
  | Raised (r : raised).

(** An absolute path, written out. *)
Definition render_path (p : list string) : string :=
  String "/"%char (join "/" p).

Section Main.

(** [state.win32] *)
Variable win32 : bool.

(** [os.path.expanduser] *)
Variable expanduser : string -> string.

(** [SHGetSpecialFolderPath(0, CSIDL_PROFILE)], with the import of
    [win32com] that precedes it *)
Variable profile_folder : result string.

(** Modelled from the spec: [utils.abort], which [main.py] imports and
    which is not among the sources.  The specification has the program
    treat a missing fabfile and an empty registry as fatal, "abort with
    message": [abort] writes something and does not return. *)
Variable abort : string -> list event * raised.

(** The files that settings are read from, by name *)
Variable settings_fs : gmap string node.

(** The directory tree, and the working directory in it *)
Variable tree : gset (list string).
Variable cwd : list string.

Variable import_ : string -> list string -> list string * result (list (string * pyobject)).
Variable doc : pyobject -> option string.

(** [rc_path()] *)
Definition rc_path (e : gmap string string) : result string :=
  if negb win32 then
    settings_file ← __getattr__ e "settings_file";
    Ok (expanduser ("~/" +:+ settings_file))
  else
    folder ← profile_folder;
    settings_file ← __getattr__ e "settings_file";
    Ok (folder +:+ "/" +:+ settings_file).

(** The body of the inner [try] of [main], from the point where
    [parse_options()] has returned [options].  [commands.items()] is taken
    in the order [map_to_list] gives.  The import is the one of
    [load_fabfile]: of what the imported file may do it covers the change
    of [sys.path], the bindings it leaves and an exception of [exn]; a
    file that prints, exits, or writes [env] or [commands] while it is
    imported is beyond this account, which is therefore used only for
    runs that end before the import. *)
Definition main_try (options : Options.t) (st : state) : state * list event * outcome :=
  if Options.show_version options then
    match __getattr__ (st_env st) "version" with
    | Ok version => (st, [Stdout ("Fabric " +:+ version)], Raised (SystemExit 0))
    | Raise e => (st, [], Raised (Exception e))
    end
  else
    match rc ← rc_path (st_env st); main_load_settings settings_fs rc (st_env st) with
    | Raise e => (st, [], Raised (Exception e))
    | Ok env' =>
        let st1 := State env' (st_commands st) (st_sys_path st) in
        match default None (find_fabfile tree cwd) with
        | None =>
            let '(out, r) := abort "Couldn't find any fabfiles!" in
            (st1, out, Raised r)
        | Some fabfile =>
            let '(sys_path', loaded) :=
              load_fabfile import_ (render_path fabfile) (st_sys_path st1) in
            let st2 := State env' (st_commands st) sys_path' in
            match loaded with
            | Raise e => (st2, [], Raised (Exception e))
            | Ok found =>
                let st3 := State env' (found ∪ st_commands st) sys_path' in
                if bool_decide (st_commands st3 = ∅) then
                  let '(out, r) := abort "Fabfile didn't contain any commands!" in
                  (st3, out, Raised r)
                else if Options.list_commands options then
                  let '(out, r) := list_commands doc (map_to_list (st_commands st3)) in
                  (st3, map Stdout out, Raised r)
                else (st3, [], Returned)
            end
        end
    end.

(** [main()]: [SystemExit] is raised on, any other exception is handed to
    [sys.excepthook] and turned into exit status 1, and a body that
    returns ends in [sys.exit(0)].  (A [KeyboardInterrupt] comes from
    outside and is not part of this account.) *)
Definition main (options : Options.t) (st : state) : state * list event * raised :=
  let '(st', out, o) := main_try options st in
  match o with
  | Raised (SystemExit code) => (st', out, SystemExit code)
  | Raised (Exception e) => (st', out ++ [Excepthook e], SystemExit 1)
  | Returned => (st', out, SystemExit 0)
  end.

End Main.

(** ** Auxiliary notions for the statements *)

(** A complete line of a text file: no newline but the one that ends it. *)
Fixpoint is_line (l : string) : bool :=
  match l with
  | EmptyString => false
  | String a EmptyString => Ascii.eqb a "010"%char
  | String a rest => negb (Ascii.eqb a "010"%char) && is_line rest
  end.

(** The content of the file made of the given lines. *)
Definition lines_text (ls : list string) : string :=
  fold_right String.append EmptyString ls.

(** In the words of the specification of the settings file: a line is to be
    ignored when it is blank or its first non-whitespace character is [#]. *)
Definition spec_ignored (l : string) : bool :=
  match lstrip l with
  | EmptyString => true
  | String a _ => Ascii.eqb a "#"%char
  end.

(** An import that fails, and one that returns the given bindings; neither
    touches [sys.path]. *)
Definition import_raising (e : exn)
  : string -> list string -> list string * result (list (string * pyobject)) :=
  fun _ sys_path => (sys_path, Raise e).

Definition import_returning (bindings : list (string * pyobject))
  : string -> list string -> list string * result (list (string * pyobject)) :=
  fun _ sys_path => (sys_path, Ok bindings).

(** The search [find_fabfile] performs, on the directory given by its
    components innermost first: the directory itself, then its parent, and
    so on; the root, which has no component left, is not looked into. *)
Fixpoint locate (fs : gset (list string)) (rdir : list string) : option (list string) :=
  match rdir with
  | [] => None
  | _ :: parent =>
      if bool_decide (rev rdir ++ ["fabfile.py"] ∈ fs) then Some (rev rdir ++ ["fabfile.py"])
      else if bool_decide (rev rdir ++ ["Fabfile.py"] ∈ fs) then Some (rev rdir ++ ["Fabfile.py"])
      else locate fs parent
  end.

(** A path component as [os.getcwd()] has them. *)
Definition plain_component (c : string) : Prop :=
  c <> "" /\ c <> "." /\ c <> "..".

(** Lines as the iteration over a file gives them: each a complete line,
    but for the last, which may have no newline at its end. *)
Fixpoint lines_ok (ls : list string) : Prop :=
  match ls with
  | [] => True
  | l :: ls' =>
      match ls' with
      | [] => is_line l = true \/ (truthy l = true /\ contains "010" l = false)
      | _ :: _ => is_line l = true /\ lines_ok ls'
      end
  end.

(** A name that [first] passes over: no key, or a key with a false value. *)
Definition passed_over {V : Type} (truth : V -> bool) (self : gmap string V)
    (name : string) : Prop :=
  forall w, self !! name = Some w -> truth w = false.

(** A character that ends a line. *)
Definition is_break (a : ascii) : bool :=
  Ascii.eqb a "010" || Ascii.eqb a "013".

Fixpoint only_breaks (s : string) : bool :=
  match s with
  | EmptyString => true
  | String a rest => is_break a && only_breaks rest
  end.

(** The rest of a string after a carriage return: a line feed that follows
    at once belongs to the same line break. *)
Definition skip_line_feed (rest : string) : string :=
  match rest with
  | String b rest' => if Ascii.eqb b "010" then rest' else rest
  | EmptyString => EmptyString
  end.

(** A docstring that is not empty and holds line breaks only. *)
Definition blank_doc (doc : pyobject -> option string) (func : pyobject) : Prop :=
  exists d, doc func = Some d /\ truthy d = true /\ only_breaks d = true.

(** * Properties *)

(** ** Strings *)

Section StrFacts.

Variable sep : ascii.

Lemma truthy_true s : truthy s = true <-> s <> EmptyString.
Proof. destruct s; simpl; split; congruence. Qed.

Lemma truthy_false s : truthy s = false <-> s = EmptyString.
Proof. destruct s; simpl; split; congruence. Qed.

Lemma contains_app s t :
  contains sep (s +:+ t) = contains sep s || contains sep t.
Proof.
  induction s as [|a s IH]; simpl; [done|].
  destruct (Ascii.eqb a sep); [done | apply IH].
Qed.

Lemma partition_absent s :
  contains sep s = false -> str_partition s sep = (s, EmptyString, EmptyString).
Proof.
  induction s as [|a s IH]; simpl; [done|].
  destruct (Ascii.eqb a sep); [done|].
  intros H. by rewrite (IH H).
Qed.

Lemma partition_first k v :
  contains sep k = false ->
  str_partition (k +:+ String sep v) sep = (k, String sep EmptyString, v).
Proof.
  induction k as [|a k IH]; simpl.
  - by rewrite Ascii.eqb_refl.
  - destruct (Ascii.eqb a sep); [done|].
    intros H. by rewrite (IH H).
Qed.

Lemma split_absent s : contains sep s = false -> split s sep = [s].
Proof.
  induction s as [|a s IH]; simpl; [done|].
  destruct (Ascii.eqb a sep); [done|].
  intros H. by rewrite (IH H).
Qed.

Lemma split_first h t :
  contains sep h = false ->
  split (h +:+ String sep t) sep = h :: split t sep.
Proof.
  induction h as [|a h IH]; simpl.
  - by rewrite Ascii.eqb_refl.
  - destruct (Ascii.eqb a sep); [done|].
    intros H. by rewrite (IH H).
Qed.

Lemma split_join pieces :
  pieces <> [] ->
  Forall (fun p => contains sep p = false) pieces ->
  split (join sep pieces) sep = pieces.
Proof.
  induction pieces as [|p ps IH]; [done|].
  intros _ Hall. apply Forall_cons in Hall as [Hp Hps].
  destruct ps as [|q ps].
  - simpl. by apply split_absent.
  - change (join sep (p :: q :: ps)) with (p +:+ String sep (join sep (q :: ps))).
    rewrite split_first by done. f_equal. by apply IH.
Qed.

Lemma split1_first h t :
  contains sep h = false -> split1 (h +:+ String sep t) sep = [h; t].
Proof.
  induction h as [|a h IH]; simpl.
  - by rewrite Ascii.eqb_refl.
  - destruct (Ascii.eqb a sep); [done|].
    intros H. by rewrite (IH H).
Qed.

(** When the separator occurs, [split(sep, 1)] has exactly two pieces, so
    unpacking it into two names cannot fail. *)
Lemma split1_present s :
  contains sep s = true ->
  exists h t, split1 s sep = [h; t] /\ contains sep h = false
              /\ s = h +:+ String sep t.
Proof.
  induction s as [|a s IH]; simpl; [done|].
  destruct (Ascii.eqb a sep) eqn:E.
  - intros _. exists EmptyString, s. apply Ascii.eqb_eq in E. by subst.
  - intros H. destruct (IH H) as (h & t & -> & Hh & ->).
    exists (String a h), t. simpl. by rewrite E.
Qed.

End StrFacts.

Lemma append_empty_r s : s +:+ EmptyString = s.
Proof.
  induction s as [|a s IH]; [done|].
  change (String a s +:+ EmptyString) with (String a (s +:+ EmptyString)).
  by rewrite IH.
Qed.

Lemma for_each_app {A St : Type} (body : St -> A -> result St) xs ys st :
  for_each body (xs ++ ys) st = (st' ← for_each body xs st; for_each body ys st').
Proof.
  revert st. induction xs as [|x xs IH]; intros st; simpl; [done|].
  destruct (body st x); simpl; [apply IH | done].
Qed.

(** ** [parse_arguments] *)

Lemma split_cons s sep : exists piece pieces, split s sep = piece :: pieces.
Proof.
  induction s as [|a s IH]; simpl; [by eexists _, _|].
  destruct (Ascii.eqb a sep); [by eexists _, _|].
  destruct (split s sep); by eexists _, _.
Qed.

Section ParseFacts.

Variable str_mod : string -> gmap string string -> result string.

Local Arguments parse_cmd_arg : simpl never.
Local Arguments parse_cmd : simpl never.

(** A token without a colon does not enter the inner loop: its record has
    the token as its name and nothing else, whatever the module binds. *)
Lemma parse_cmd_plain globals cmd :
  contains ":" cmd = false ->
  parse_cmd globals str_mod cmd = Ok (cmd, [], ∅, []).
Proof. intros H. unfold parse_cmd. by rewrite H. Qed.

Lemma parse_loop_plain globals args acc :
  Forall (fun t => contains ":" t = false) args ->
  for_each (fun cmds cmd => inv ← parse_cmd globals str_mod cmd; Ok (cmds ++ [inv]))
    args acc
  = Ok (acc ++ map (fun t => (t, [], ∅, [])) args).
Proof.
  intros Hall. revert acc.
  induction Hall as [|cmd args Hcmd _ IH]; intros acc; simpl.
  - by rewrite app_nil_r.
  - rewrite (parse_cmd_plain _ _ Hcmd). simpl.
    rewrite IH. by rewrite <- app_assoc.
Qed.

(** In [main.py] the first statement of the inner loop reads the name
    [partition], which is not bound. *)
Lemma parse_cmd_arg_unbound st cmd_arg_kv :
  parse_cmd_arg main_py str_mod st cmd_arg_kv = Raise NameError.
Proof. by destruct st as [[cmd_args cmd_kwargs] cmd_hosts]. Qed.

(** The inner loop runs at least once for a token with a colon, since
    [split(',')] yields at least one piece. *)
Lemma parse_cmd_colon_unbound cmd :
  contains ":" cmd = true ->
  parse_cmd main_py str_mod cmd = Raise NameError.
Proof.
  intros Hc. unfold parse_cmd. rewrite Hc.
  destruct (split1_present _ _ Hc) as (name & rest & -> & _ & _).
  destruct (split_cons rest ",") as (piece & pieces & ->).
  cbn [for_each]. by rewrite parse_cmd_arg_unbound.
Qed.

Lemma parse_loop_colon_unbound args acc :
  Exists (fun t => contains ":" t = true) args ->
  for_each (fun cmds cmd => inv ← parse_cmd main_py str_mod cmd; Ok (cmds ++ [inv]))
    args acc
  = Raise NameError.
Proof.
  revert acc. induction args as [|cmd args IH]; intros acc Hex.
  - by apply Exists_nil in Hex.
  - simpl. destruct (contains ":" cmd) eqn:Hc.
    + by rewrite (parse_cmd_colon_unbound _ Hc).
    + rewrite (parse_cmd_plain _ _ Hc). simpl. apply IH.
      apply Exists_cons in Hex as [Hex|Hex]; [congruence | done].
Qed.

(** C1.  [parse_arguments] raises on a token whose name is followed by a
    colon and nothing else: the argspec list of ['deploy:'] is [['']],
    so the inner loop runs once, and its first statement calls
    [partition], a name [main.py] does not bind.  The call ends in
    [NameError]; no record is returned. *)
Theorem bare_colon_token_raises_NameError :
  parse_arguments main_py str_mod ["deploy:"] = Raise NameError.
Proof. reflexivity. Qed.

(** C5.  On the tokens with a [host] or [hosts] argspec no host list is
    set: the call of the unbound [partition] raises [NameError] before
    the key is looked at, for a single directive as for [hosts] after
    [host]. *)
Theorem host_argspec_raises_NameError :
  parse_arguments main_py str_mod ["sync:host=a"] = Raise NameError
  /\ parse_arguments main_py str_mod ["sync:host=a,hosts=b;c"] = Raise NameError
  /\ parse_arguments main_py str_mod ["sync:hosts=b;c"] = Raise NameError.
Proof. repeat split; reflexivity. Qed.

(** C6.  No record is produced for a token with a key such as [Host] or
    [HOSTS]: nothing is stored as an ordinary keyword argument, the call
    raises [NameError] at the unbound [partition]. *)
Theorem capital_host_key_raises_NameError :
  parse_arguments main_py str_mod ["sync:Host=b"] = Raise NameError
  /\ parse_arguments main_py str_mod ["sync:HOSTS=b"] = Raise NameError.
Proof. split; reflexivity. Qed.

(** Binding [partition] alone would not do: the statement that stores a
    keyword argument reads [ENV], which [main.py] does not bind either. *)
Lemma keyword_branch_reads_unbound_ENV partition st cmd_arg_kv k m v :
  partition cmd_arg_kv "="%char = (k, m, v) ->
  truthy v = true ->
  k ∉ ["host"; "hosts"] ->
  parse_cmd_arg (Namespace (Some partition) None) str_mod st cmd_arg_kv
  = Raise NameError.
Proof.
  intros Hp Hv Hk. destruct st as [[cmd_args cmd_kwargs] cmd_hosts].
  unfold parse_cmd_arg. simpl. rewrite Hp, Hv.
  by rewrite bool_decide_eq_false_2.
Qed.

(** C8.  An argspec [key=value] with an ordinary key stores nothing under
    the key, neither the interpolated value nor the key: the call raises
    [NameError] at the unbound [partition], before any interpolation. *)
Theorem keyword_argspec_raises_NameError :
  parse_arguments main_py str_mod ["deploy:env=staging"] = Raise NameError
  /\ parse_arguments main_py str_mod ["deploy:env=%(user)s"] = Raise NameError.
Proof. split; reflexivity. Qed.

(** C10.  For [host=] and [hosts=] with nothing after the [=] the key is
    not appended to the positional arguments: the call raises
    [NameError] at the unbound [partition], before the value is
    tested. *)
Theorem empty_host_value_raises_NameError :
  parse_arguments main_py str_mod ["sync:host="] = Raise NameError
  /\ parse_arguments main_py str_mod ["sync:hosts="] = Raise NameError.
Proof. split; reflexivity. Qed.

(** C7, amended.  The task name is used exactly as it is written: a list of tokens
    without a colon is parsed to one record per token, named by the whole
    token, surrounding whitespace included, with no positional argument,
    no keyword argument and no host. *)
Theorem task_name_is_not_stripped globals (args : list string) :
  Forall (fun t => contains ":" t = false) args ->
  parse_arguments globals str_mod args = Ok (map (fun t => (t, [], ∅, [])) args).
Proof. intros Hall. unfold parse_arguments. by rewrite parse_loop_plain. Qed.

End ParseFacts.

(** C7, as stated, fails: the name of a token is not stripped.  The token
    [' deploy '] gives a record named [' deploy '], blanks included
    (no argspec is read, so [%] is not reached, whatever it does). *)
Lemma untrimmed_name_counterexample :
  parse_arguments main_py (fun _ _ => Raise ValueError) [" deploy "]
  = Ok [(" deploy ", [], ∅, [])]
  /\ strip " deploy " <> " deploy ".
Proof. split; [reflexivity | discriminate]. Qed.

Lemma task_name_is_not_stripped_witness :
  Forall (fun t => contains ":" t = false) [" deploy "; "up"]
  /\ parse_arguments main_py (fun _ _ => Raise ValueError) [" deploy "; "up"]
     = Ok [(" deploy ", [], ∅, []); ("up", [], ∅, [])].
Proof.
  assert (H : Forall (fun t => contains ":" t = false) [" deploy "; "up"]).
  { repeat constructor. }
  split; [exact H|].
  exact (task_name_is_not_stripped (fun _ _ => Raise ValueError) main_py
           [" deploy "; "up"] H).
Defined.

(** ** [load_settings] *)

Lemma file_lines_cons l rest :
  is_line l = true -> file_lines (l +:+ rest) = l :: file_lines rest.
Proof.
  induction l as [|a l IH]; [done|].
  destruct l as [|b l].
  - simpl. intros ->. done.
  - change (is_line (String a (String b l)))
      with (negb (Ascii.eqb a "010") && is_line (String b l)).
    intros [Ha Hl]%andb_true_iff.
    change (String a (String b l) +:+ rest) with (String a (String b l +:+ rest)).
    cbn [file_lines]. apply negb_true_iff in Ha. rewrite Ha.
    by rewrite (IH Hl).
Qed.

Lemma dict_acc_lookup {V : Type} (pairs : list (string * V)) (acc : gmap string V) k :
  k ∈ pairs.*1 \/ is_Some (acc !! k) ->
  is_Some (fold_left (fun m kv => <[kv.1 := kv.2]> m) pairs acc !! k).
Proof.
  revert acc. induction pairs as [|[k' v'] pairs IH]; intros acc; simpl.
  - intros [H|H]; [by apply elem_of_nil in H | done].
  - intros [H|H]; apply IH.
    + apply elem_of_cons in H as [->|H]; [right | by left].
      rewrite lookup_insert_eq. by eexists.
    + right. destruct (decide (k' = k)) as [->|Hne].
      * rewrite lookup_insert_eq. by eexists.
      * by rewrite lookup_insert_ne.
Qed.

Lemma dict_lookup_key {V : Type} (pairs : list (string * V)) k :
  k ∈ pairs.*1 -> is_Some (dict pairs !! k).
Proof. intros H. apply dict_acc_lookup. by left. Qed.

Lemma load_settings_missing fs path :
  fs !! path = None -> load_settings fs path = Ok None.
Proof. intros H. unfold load_settings. by rewrite H. Qed.

Lemma load_settings_file fs path content :
  fs !! path = Some (File content) ->
  load_settings fs path
  = Ok (Some (dict (map setting_of_line (List.filter comments (file_lines content))))).
Proof. intros H. unfold load_settings, open_read. by rewrite H. Qed.

Lemma rstrip_cons a s :
  rstrip (String a s)
  = match rstrip s with
    | EmptyString => if isspace a then EmptyString else String a EmptyString
    | String b r => String a (String b r)
    end.
Proof. done. Qed.

Lemma rstrip_idem s : rstrip (rstrip s) = rstrip s.
Proof.
  induction s as [|a s IH]; [done|]. rewrite rstrip_cons.
  destruct (rstrip s) as [|b r] eqn:Hr.
  - destruct (isspace a) eqn:Ha; [done|]. rewrite rstrip_cons. simpl. by rewrite Ha.
  - rewrite rstrip_cons, IH. done.
Qed.

Lemma rstrip_head a s :
  isspace a = false -> exists t, rstrip (String a s) = String a t.
Proof.
  intros Ha. rewrite rstrip_cons. destruct (rstrip s) as [|b r].
  - rewrite Ha. by eexists.
  - by eexists.
Qed.

Lemma lstrip_head s :
  lstrip s = EmptyString \/ exists a t, lstrip s = String a t /\ isspace a = false.
Proof.
  induction s as [|a s IH]; [by left|]. cbn [lstrip].
  destruct (isspace a) eqn:Ha; [exact IH|]. right. by exists a, s.
Qed.

(** What [strip] returns has nothing left to strip. *)
Lemma strip_idem s : strip (strip s) = strip s.
Proof.
  unfold strip. destruct (lstrip_head s) as [->|(a & t & -> & Ha)]; [done|].
  destruct (rstrip_head a t Ha) as (t' & Ht).
  rewrite Ht. cbn [lstrip]. rewrite Ha, <- Ht. apply rstrip_idem.
Qed.

Lemma file_lines_nonempty content l :
  l ∈ file_lines content -> truthy l = true.
Proof.
  revert l. induction content as [|a rest IH]; intros l; cbn [file_lines].
  - intros H. by apply elem_of_nil in H.
  - destruct (Ascii.eqb a "010").
    + intros [->|H]%elem_of_cons; [done | by apply IH].
    + destruct (file_lines rest) as [|l0 ls].
      * intros ->%list_elem_of_singleton. done.
      * intros [->|H]%elem_of_cons; [done|]. apply IH. by right.
Qed.

Lemma dict_acc_fresh {V : Type} (pairs : list (string * V)) (acc : gmap string V) k :
  k ∉ pairs.*1 ->
  fold_left (fun m kv => <[kv.1 := kv.2]> m) pairs acc !! k = acc !! k.
Proof.
  revert acc. induction pairs as [|[k' v'] pairs IH]; intros acc Hk; simpl; [done|].
  rewrite fmap_cons, not_elem_of_cons in Hk. destruct Hk as [Hne Hk].
  rewrite IH by done. by rewrite lookup_insert_ne.
Qed.

(** [dict] binds a key to the value of the last pair that has it. *)
Lemma dict_lookup_last {V : Type} (before after : list (string * V)) k v :
  k ∉ after.*1 -> dict (before ++ (k, v) :: after) !! k = Some v.
Proof.
  intros Hk. unfold dict. rewrite fold_left_app. simpl.
  rewrite dict_acc_fresh by done. apply lookup_insert_eq.
Qed.

Lemma dict_acc_origin {V : Type} (pairs : list (string * V)) (acc : gmap string V) k v :
  fold_left (fun m kv => <[kv.1 := kv.2]> m) pairs acc !! k = Some v ->
  (k, v) ∈ pairs \/ acc !! k = Some v.
Proof.
  revert acc. induction pairs as [|[k' v'] pairs IH]; intros acc; simpl; [by right|].
  intros [H|H]%IH.
  - left. by right.
  - destruct (decide (k' = k)) as [->|Hne].
    + rewrite lookup_insert_eq in H. injection H as ->. left. by left.
    + rewrite lookup_insert_ne in H by done. by right.
Qed.

Lemma dict_lookup_origin {V : Type} (pairs : list (string * V)) k v :
  dict pairs !! k = Some v -> (k, v) ∈ pairs.
Proof. intros [H|H]%dict_acc_origin; [done | by rewrite lookup_empty in H]. Qed.

Lemma is_line_cons a l :
  Ascii.eqb a "010" = false -> is_line l = true -> is_line (String a l) = true.
Proof.
  intros Ha Hl. destruct l as [|b l]; [done|].
  change (negb (Ascii.eqb a "010") && is_line (String b l) = true).
  by rewrite Ha, Hl.
Qed.

(** The lines of a file are complete but for the last, which may lack
    its newline. *)
Lemma file_lines_ok content : lines_ok (file_lines content).
Proof.
  induction content as [|a rest IH]; [done|]. cbn [file_lines].
  destruct (Ascii.eqb a "010") eqn:Ha.
  - destruct (file_lines rest) as [|l ls]; [by left|]. by split.
  - destruct (file_lines rest) as [|l ls].
    + right. split; [done|]. simpl. by rewrite Ha.
    + destruct ls as [|l' ls].
      * destruct IH as [Hl|[Hl1 Hl2]].
        -- left. by apply is_line_cons.
        -- right. split; [done|]. simpl. by rewrite Ha.
      * destruct IH as [Hl IH]. split; [by apply is_line_cons | done].
Qed.

Lemma file_lines_unterminated l :
  truthy l = true -> contains "010" l = false -> file_lines l = [l].
Proof.
  induction l as [|a l IH]; [done|]. intros _. simpl.
  destruct (Ascii.eqb a "010"); [done|]. intros Hl.
  destruct l as [|b l]; [done|]. by rewrite IH.
Qed.

(** Writing such lines to a file and reading the file gives them back. *)
Lemma lines_ok_text ls : lines_ok ls -> file_lines (lines_text ls) = ls.
Proof.
  induction ls as [|l ls IH]; [done|].
  cbn [lines_text fold_right]. destruct ls as [|l' ls].
  - intros [Hl|[Hl1 Hl2]].
    + by rewrite file_lines_cons.
    + cbn [fold_right]. rewrite append_empty_r. by apply file_lines_unterminated.
  - intros [Hl Hok]. rewrite file_lines_cons by done. f_equal. by apply IH.
Qed.

Lemma lines_ok_remove before c after :
  lines_ok (before ++ c :: after) -> lines_ok (before ++ after).
Proof.
  induction before as [|b bs IH].
  - simpl. destruct after as [|l ls]; [done|]. by intros [_ H].
  - assert (Hne : exists x xs, bs ++ c :: after = x :: xs).
    { destruct bs; by eexists _, _. }
    destruct Hne as (x & xs & Hne).
    change ((b :: bs) ++ c :: after) with (b :: (bs ++ c :: after)).
    change ((b :: bs) ++ after) with (b :: (bs ++ after)).
    intros H. assert (Hb : is_line b = true /\ lines_ok (bs ++ c :: after)).
    { revert H. rewrite Hne. by intros [H1 H2]. }
    destruct Hb as [Hb Hok]. apply IH in Hok.
    destruct (bs ++ after) as [|y ys]; [by left | by split].
Qed.

(** C2: the code at a path that does not exist.  [load_settings] returns
    [None], not a mapping, and the statement of [main] that merges the
    settings into the environment then raises [TypeError]. *)
Theorem load_settings_missing_path_returns_None :
  load_settings ∅ "/nonexistent" = Ok None
  /\ main_load_settings ∅ "/nonexistent" env = Raise TypeError.
Proof. split; reflexivity. Qed.

(** C3, as stated, fails: a line whose first non-whitespace character is
    [#] but which starts with whitespace is kept, and gives a key. *)
Lemma indented_comment_gives_key_counterexample :
  spec_ignored "  # note
" = true
  /\ load_settings (<["rc" := File "  # note
"]> ∅) "rc" = Ok (Some (<["# note" := ""]> ∅))
  /\ (<["# note" := ""]> ∅ : gmap string string) !! "# note" = Some "".
Proof. repeat split; vm_compute; reflexivity. Qed.

(** C3, amended.  For every settings file that exists, [load_settings]
    returns a mapping, and of the lines of the file it ignores those whose
    first character is [#]: taking such a line out of the file leaves
    the mapping as it is, and every key of the mapping is the stripped
    text before the first [=] of a line that does not start with [#].
    A line that is not blank and does not start with [#] is not
    ignored, also when whitespace precedes a [#]: the stripped text
    before its first [=] is a key of the mapping. *)
Theorem line_ignored_iff_starts_with_hash (fs : gmap string node) (path content : string) :
  fs !! path = Some (File content) ->
  exists m,
    load_settings fs path = Ok (Some m)
    /\ (forall before c after,
          file_lines content = before ++ c :: after ->
          startswith "#" c = true ->
          load_settings (<[path := File (lines_text (before ++ after))]> fs) path
          = Ok (Some m))
    /\ (forall k, is_Some (m !! k) ->
          exists l, l ∈ file_lines content /\ startswith "#" l = false
                    /\ (setting_of_line l).1 = k)
    /\ (forall l, l ∈ file_lines content -> startswith "#" l = false ->
          strip l <> "" -> is_Some (m !! (setting_of_line l).1)).
Proof.
  intros Hfs. rewrite (load_settings_file _ _ _ Hfs).
  eexists. split; [done|]. split; [|split].
  - intros before c after Hlines Hc.
    rewrite (load_settings_file _ _ (lines_text (before ++ after)))
      by apply lookup_insert_eq.
    rewrite lines_ok_text.
    + assert (Hkeep : List.filter comments (before ++ c :: after)
                      = List.filter comments (before ++ after)).
      { rewrite !List.filter_app. f_equal. simpl.
        unfold comments at 1. rewrite Hc. by rewrite andb_false_r. }
      by rewrite Hlines, Hkeep.
    + apply (lines_ok_remove before c after). rewrite <- Hlines.
      apply file_lines_ok.
  - intros k [v Hk]. apply dict_lookup_origin in Hk.
    apply list_elem_of_fmap in Hk as (l & Hl & Hin).
    apply list_elem_of_In, List.filter_In in Hin as [Hin Hc].
    apply list_elem_of_In in Hin.
    exists l. split; [done|]. split.
    + unfold comments in Hc. apply andb_true_iff in Hc as [_ Hc].
      by apply negb_true_iff in Hc.
    + by rewrite <- Hl.
  - intros l Hin Hl _. apply dict_lookup_key.
    apply list_elem_of_fmap. exists (setting_of_line l). split; [done|].
    apply list_elem_of_fmap. exists l. split; [done|].
    apply list_elem_of_In, List.filter_In. split; [by apply list_elem_of_In|].
    unfold comments. by rewrite Hl, (file_lines_nonempty _ _ Hin).
Qed.

Lemma line_ignored_iff_starts_with_hash_witness :
  (<["rc" := File "user = deploy
# staging hosts
  # note = 1
#port = 22"]> ∅ : gmap string node) !! "rc" = Some (File "user = deploy
# staging hosts
  # note = 1
#port = 22")
  /\ exists m,
    load_settings (<["rc" := File "user = deploy
# staging hosts
  # note = 1
#port = 22"]> ∅) "rc" = Ok (Some m)
    /\ (forall before c after,
          file_lines "user = deploy
# staging hosts
  # note = 1
#port = 22" = before ++ c :: after ->
          startswith "#" c = true ->
          load_settings (<["rc" := File (lines_text (before ++ after))]>
                           (<["rc" := File "user = deploy
# staging hosts
  # note = 1
#port = 22"]> ∅)) "rc"
          = Ok (Some m))
    /\ (forall k, is_Some (m !! k) ->
          exists l, l ∈ file_lines "user = deploy
# staging hosts
  # note = 1
#port = 22" /\ startswith "#" l = false
                    /\ (setting_of_line l).1 = k)
    /\ (forall l, l ∈ file_lines "user = deploy
# staging hosts
  # note = 1
#port = 22" -> startswith "#" l = false ->
          strip l <> "" -> is_Some (m !! (setting_of_line l).1)).
Proof.
  split; [reflexivity|].
  exact (line_ignored_iff_starts_with_hash
           (<["rc" := File "user = deploy
# staging hosts
  # note = 1
#port = 22"]> ∅) "rc" "user = deploy
# staging hosts
  # note = 1
#port = 22" eq_refl).
Defined.

(** A file of comments only, the last without a newline at its end, gives
    the empty mapping. *)
Example comments_only_file :
  load_settings (<["rc" := File "# a = 1
#b = 2"]> ∅) "rc" = Ok (Some ∅).
Proof. vm_compute. reflexivity. Qed.

(** A blank line is kept as well: it binds the empty key. *)
Example blank_line_binds_empty_key :
  load_settings (<["rc" := File "a=1

"]> ∅) "rc" = Ok (Some (<["" := ""]> (<["a" := "1"]> ∅))).
Proof. vm_compute. reflexivity. Qed.

Example load_settings_last_wins :
  load_settings (<["rc" := File "# settings
user = deploy
user=root=x
"]> ∅) "rc" = Ok (Some (<["user" := "root=x"]> ∅)).
Proof. vm_compute. reflexivity. Qed.

(** ** [load_fabfile] *)

Lemma load_fabfile_on_path import_ path sys_path directory fabfile :
  os_path_split path = (directory, fabfile) ->
  directory ∈ sys_path ->
  load_fabfile import_ path sys_path
  = match import_ (splitext_root fabfile) sys_path with
    | (sys_path', Ok imported) => (sys_path', Ok (callables imported))
    | (sys_path', Raise e) => (sys_path', Raise e)
    end.
Proof.
  intros Hsplit Hin. unfold load_fabfile. rewrite Hsplit.
  rewrite bool_decide_eq_true_2 by done.
  by destruct (import_ _ _) as [sp [m|e]].
Qed.

(** C4, as stated, fails: when the import raises, the directory that was
    put in front of [sys.path] stays there. *)
Lemma failed_import_leaves_directory_counterexample :
  ("/proj" ∉ ["/usr/lib/python"])
  /\ load_fabfile (import_raising SyntaxError) "/proj/fabfile.py" ["/usr/lib/python"]
     = (["/proj"; "/usr/lib/python"], Raise SyntaxError)
  /\ ["/proj"; "/usr/lib/python"] <> ["/usr/lib/python"].
Proof.
  split; [|split; [reflexivity | discriminate]].
  rewrite elem_of_cons, elem_of_nil. intros [H|[]]. discriminate H.
Qed.

(** C4, amended.  When the directory of the path is not on [sys.path], the
    import runs with the directory put in front.  If the import returns,
    the first entry of [sys.path] is deleted afterwards, so that [sys.path]
    ends as it began provided the import left it alone.  If the import
    raises, nothing is deleted: the exception is raised on and the
    directory is still in front of [sys.path]. *)
Theorem load_fabfile_restores_sys_path_on_return
    (import_ : string -> list string -> list string * result (list (string * pyobject)))
    (path : string) (sys_path : list string) (directory fabfile : string) :
  os_path_split path = (directory, fabfile) ->
  directory ∉ sys_path ->
  match import_ (splitext_root fabfile) (directory :: sys_path) with
  | (sys_path', Ok imported) =>
      load_fabfile import_ path sys_path
      = (tail sys_path',
         match sys_path' with
         | [] => Raise IndexError
         | _ :: _ => Ok (callables imported)
         end)
      /\ (sys_path' = directory :: sys_path ->
          load_fabfile import_ path sys_path = (sys_path, Ok (callables imported)))
  | (sys_path', Raise e) =>
      load_fabfile import_ path sys_path = (sys_path', Raise e)
      /\ (sys_path' = directory :: sys_path ->
          (load_fabfile import_ path sys_path).1 = directory :: sys_path
          /\ (load_fabfile import_ path sys_path).1 <> sys_path)
  end.
Proof.
  intros Hsplit Hin. unfold load_fabfile. rewrite Hsplit.
  rewrite bool_decide_eq_false_2 by done.
  destruct (import_ _ _) as [sp [m|e]].
  - split.
    + by destruct sp.
    + by intros ->.
  - split; [done|]. intros ->. split; [done|]. simpl.
    intros H. apply (f_equal length) in H. simpl in H. lia.
Qed.

Lemma load_fabfile_restores_sys_path_on_return_witness :
  os_path_split "/proj/fabfile.py" = ("/proj", "fabfile.py")
  /\ ("/proj" ∉ ["/usr/lib/python"])
  /\ load_fabfile
       (import_returning [("deploy", PyObject true 1); ("VERSION", PyObject false 2)])
       "/proj/fabfile.py" ["/usr/lib/python"]
     = (["/usr/lib/python"],
        Ok (callables [("deploy", PyObject true 1); ("VERSION", PyObject false 2)])).
Proof.
  assert (Hnot : "/proj" ∉ ["/usr/lib/python"]).
  { rewrite elem_of_cons, elem_of_nil. intros [H|[]]. discriminate H. }
  split; [reflexivity|]. split; [exact Hnot|].
  exact (proj1 (load_fabfile_restores_sys_path_on_return
                  (import_returning [("deploy", PyObject true 1); ("VERSION", PyObject false 2)])
                  "/proj/fabfile.py" ["/usr/lib/python"] "/proj" "fabfile.py"
                  eq_refl Hnot)).
Defined.

Example load_fabfile_keeps_callables :
  callables [("deploy", PyObject true 1); ("VERSION", PyObject false 2)]
  = <["deploy" := PyObject true 1]> ∅.
Proof. vm_compute. reflexivity. Qed.

(** ** [find_fabfile] *)

Section FindFacts.

Variable fs : gset (list string).
Variable cwd : list string.
Hypothesis cwd_plain : Forall plain_component cwd.

Lemma normpath_plain comps acc :
  Forall plain_component comps ->
  fold_left normpath_step comps acc = acc ++ comps.
Proof.
  intros H. revert acc. induction H as [|c comps (H1 & H2 & H3) _ IH]; intros acc; simpl.
  - by rewrite app_nil_r.
  - unfold normpath_step at 2.
    rewrite !bool_decide_eq_false_2 by done. simpl.
    rewrite IH. by rewrite <- app_assoc.
Qed.

Lemma normpath_dots n acc :
  fold_left normpath_step (repeat ".." n ++ ["."]) acc = Nat.iter n (@removelast string) acc.
Proof.
  revert acc. induction n as [|n IH]; intros acc; [done|].
  cbn [repeat app fold_left].
  change (normpath_step acc "..") with (removelast acc).
  rewrite IH. clear IH. induction n as [|n IHn]; [done|].
  simpl. by rewrite IHn.
Qed.

(** The directory [path] names after [n] rounds of the loop. *)
Lemma abspath_up n :
  abspath cwd (repeat ".." n ++ ["."]) = Nat.iter n (@removelast string) cwd.
Proof.
  unfold abspath. rewrite fold_left_app.
  rewrite (normpath_plain cwd []) by done.
  apply normpath_dots.
Qed.

Lemma abspath_up_file n x :
  plain_component x ->
  abspath cwd ((repeat ".." n ++ ["."]) ++ [x]) = Nat.iter n (@removelast string) cwd ++ [x].
Proof.
  intros (H1 & H2 & H3). unfold abspath.
  rewrite app_assoc, fold_left_app.
  fold (abspath cwd (repeat ".." n ++ ["."])). rewrite abspath_up.
  simpl. unfold normpath_step. by rewrite !bool_decide_eq_false_2 by done.
Qed.

Lemma removelast_plain d :
  Forall plain_component d -> Forall plain_component (removelast d).
Proof.
  induction 1 as [|c d Hc Hd IH]; [done|].
  destruct d as [|c' d]; [done|]. by constructor.
Qed.

Lemma up_plain n : Forall plain_component (Nat.iter n (@removelast string) cwd).
Proof. induction n; simpl; [done | by apply removelast_plain]. Qed.

Lemma rev_removelast (d : list string) : rev (removelast d) = tail (rev d).
Proof.
  destruct (decide (d = [])) as [->|Hne]; [done|].
  destruct (exists_last Hne) as (d' & c & ->).
  by rewrite removelast_last, rev_unit.
Qed.

Lemma find_fabfile_loop_locate fuel n :
  length (Nat.iter n (@removelast string) cwd) < fuel ->
  find_fabfile_loop fs cwd fuel (repeat ".." n ++ ["."])
  = Some (locate fs (rev (Nat.iter n (@removelast string) cwd))).
Proof.
  revert n. induction fuel as [|fuel IH]; intros n Hlen; [lia|].
  cbn [find_fabfile_loop]. rewrite abspath_up.
  pose proof (up_plain n) as Hplain.
  destruct (decide (Nat.iter n (@removelast string) cwd = [])) as [Hd|Hne].
  { rewrite Hd. done. }
  destruct (exists_last Hne) as (d' & c & Hd).
  assert (Hc : truthy (basename (Nat.iter n (@removelast string) cwd)) = true).
  { rewrite Hd. unfold basename. rewrite List.last_last.
    rewrite Hd in Hplain. apply Forall_app in Hplain as [_ Hc].
    apply Forall_singleton in Hc as (Hc & _). by destruct c. }
  rewrite Hc. unfold guesses, path_exists. cbn [List.filter].
  rewrite !abspath_up_file by (repeat split; discriminate).
  assert (Hrev : rev (Nat.iter n (@removelast string) cwd) = c :: rev d').
  { by rewrite Hd, rev_unit. }
  rewrite Hrev. cbn [locate]. rewrite <- Hrev, rev_involutive.
  destruct (bool_decide (Nat.iter n (@removelast string) cwd ++ ["fabfile.py"] ∈ fs)).
  { cbn beta iota. by rewrite abspath_up_file by (repeat split; discriminate). }
  destruct (bool_decide (Nat.iter n (@removelast string) cwd ++ ["Fabfile.py"] ∈ fs)).
  { cbn beta iota. by rewrite abspath_up_file by (repeat split; discriminate). }
  change (".." :: repeat ".." n ++ ["."]) with (repeat ".." (S n) ++ ["."]).
  rewrite IH.
  - by rewrite Nat.iter_succ, rev_removelast, Hrev.
  - rewrite Nat.iter_succ, Hd, removelast_last.
    rewrite Hd, length_app in Hlen. simpl in Hlen. lia.
Qed.

Lemma locate_hit rdir p :
  locate fs rdir = Some p ->
  p ∈ fs /\ exists d g, d <> [] /\ g ∈ guesses /\ p = d ++ [g].
Proof.
  induction rdir as [|c parent IH]; [done|]. cbn [locate].
  assert (Hne : rev (c :: parent) <> []).
  { simpl. by destruct (rev parent). }
  case_bool_decide as H1.
  { intros [= <-]. split; [done|]. exists (rev (c :: parent)), "fabfile.py".
    repeat split; [done | unfold guesses; rewrite !elem_of_cons; auto]. }
  case_bool_decide as H2; [|exact IH].
  intros [= <-]. split; [done|]. exists (rev (c :: parent)), "Fabfile.py".
  repeat split; [done | unfold guesses; rewrite !elem_of_cons; auto].
Qed.

(** [find_fabfile] always returns, and what it returns is the first hit of
    the search through the working directory and those of its ancestors
    that are not the root. *)
Lemma find_fabfile_locate :
  find_fabfile fs cwd = Some (locate fs (rev cwd)).
Proof.
  unfold find_fabfile.
  change ["."] with (repeat ".." 0 ++ ["."]).
  rewrite find_fabfile_loop_locate; [done | simpl; lia].
Qed.

(** A path that [find_fabfile] returns exists, carries one of the two
    names, and lies in a directory other than the root. *)
Lemma find_fabfile_hit_below_root p :
  find_fabfile fs cwd = Some (Some p) ->
  p ∈ fs /\ exists d g, d <> [] /\ g ∈ guesses /\ p = d ++ [g].
Proof.
  rewrite find_fabfile_locate. intros [= H]. by apply locate_hit in H.
Qed.

End FindFacts.

(** C9: the code where the candidate lies in the root.  Started in the root
    itself, the loop body does not run at all; started below it, the walk
    stops when it arrives at the root.  Either way the file in the root is
    not found and [None] is returned. *)
Theorem find_fabfile_never_looks_into_root :
  find_fabfile {[ ["fabfile.py"] ]} [] = Some None
  /\ find_fabfile {[ ["fabfile.py"] ]} ["srv"; "app"] = Some None
  /\ find_fabfile {[ ["srv"; "Fabfile.py"]; ["srv"; "fabfile.py"]; ["fabfile.py"] ]}
       ["srv"; "app"] = Some (Some ["srv"; "fabfile.py"]).
Proof. repeat split; vm_compute; reflexivity. Qed.


(** ** [parse_arguments]: further properties *)

Section ParseMore.

Variable globals : namespace.
Variable str_mod : string -> gmap string string -> result string.

Local Arguments parse_cmd_arg : simpl never.
Local Arguments parse_cmd : simpl never.

Implicit Types (a : list string) (kw : gmap string string) (h : list string).

Lemma parse_loop_acc args acc :
  for_each (fun cmds cmd => inv ← parse_cmd globals str_mod cmd; Ok (cmds ++ [inv])) args acc
  = (cmds ← parse_arguments globals str_mod args; Ok (acc ++ cmds)).
Proof.
  unfold parse_arguments. revert acc.
  induction args as [|cmd args IH]; intros acc; simpl.
  - by rewrite app_nil_r.
  - destruct (parse_cmd globals str_mod cmd) as [inv|e]; simpl; [|done].
    rewrite (IH (acc ++ [inv])), (IH [inv]).
    destruct (for_each _ args []) as [cmds|e]; simpl; [|done].
    by rewrite <- app_assoc.
Qed.

(** X1.  Tokens are parsed one by one, none influencing another: parsing two
    token lists put end to end gives the two results put end to end, and
    raises what the first raises, else what the second raises. *)
Theorem parse_arguments_app (xs ys : list string) :
  parse_arguments globals str_mod (xs ++ ys)
  = (cmds1 ← parse_arguments globals str_mod xs;
     cmds2 ← parse_arguments globals str_mod ys;
     Ok (cmds1 ++ cmds2)).
Proof.
  unfold parse_arguments at 1. rewrite for_each_app.
  fold (parse_arguments globals str_mod xs).
  destruct (parse_arguments globals str_mod xs) as [cmds1|e]; simpl; [|done].
  apply parse_loop_acc.
Qed.

Lemma parse_cmd_name cmd name a kw h :
  parse_cmd globals str_mod cmd = Ok (name, a, kw, h) ->
  name = (str_partition cmd ":").1.1.
Proof.
  unfold parse_cmd. destruct (contains ":" cmd) eqn:Hc.
  - destruct (split1_present _ _ Hc) as (n & rest & -> & Hn & ->).
    rewrite partition_first by done.
    destruct (for_each _ _ _) as [[[a1 kw1] h1]|e]; simpl; [|done].
    by intros [= <- _ _ _].
  - rewrite partition_absent by done. by intros [= <- _ _ _].
Qed.

Lemma parse_loop_names args acc cmds :
  for_each (fun cmds cmd => inv ← parse_cmd globals str_mod cmd; Ok (cmds ++ [inv])) args acc
  = Ok cmds ->
  map (fun inv : invocation => inv.1.1.1) cmds
  = map (fun inv : invocation => inv.1.1.1) acc
    ++ map (fun t => (str_partition t ":").1.1) args.
Proof.
  revert acc. induction args as [|cmd args IH]; intros acc; simpl.
  - intros [= <-]. by rewrite app_nil_r.
  - destruct (parse_cmd globals str_mod cmd) as [[[[n a] kw] h]|e] eqn:Hc; simpl; [|done].
    intros H. rewrite (IH _ H), map_app. simpl.
    rewrite <- app_assoc. simpl. by rewrite (parse_cmd_name _ _ _ _ _ Hc).
Qed.

(** X2.  The records come one per token and in the order of the tokens, each
    named by the text of its token before the first colon. *)
Theorem parse_arguments_names_in_order (args : list string) (cmds : list invocation) :
  parse_arguments globals str_mod args = Ok cmds ->
  map (fun inv : invocation => inv.1.1.1) cmds
  = map (fun t => (str_partition t ":").1.1) args.
Proof. intros H. by apply parse_loop_names in H. Qed.

End ParseMore.

(** X3.  With the names [main.py] binds, [parse_arguments] raises exactly
    when some token contains a colon, and what it raises is [NameError]:
    the first such token reaches the call of [partition]. *)
Theorem parse_arguments_raises_iff_colon
    (str_mod : string -> gmap string string -> result string) (args : list string) :
  (parse_arguments main_py str_mod args = Raise NameError
   <-> Exists (fun t => contains ":" t = true) args)
  /\ (forall e, parse_arguments main_py str_mod args = Raise e -> e = NameError).
Proof.
  destruct (decide (Exists (fun t => contains ":" t = true) args)) as [Hex|Hno].
  - assert (Hr : parse_arguments main_py str_mod args = Raise NameError).
    { by apply parse_loop_colon_unbound. }
    split; [done|]. intros e. rewrite Hr. by intros [= <-].
  - assert (Hall : Forall (fun t => contains ":" t = false) args).
    { apply Forall_forall. intros t Ht.
      destruct (contains ":" t) eqn:Hc; [|done].
      exfalso. apply Hno, Exists_exists. by exists t. }
    assert (Hr : parse_arguments main_py str_mod args
                 = Ok (map (fun t => (t, [], ∅, [])) args)).
    { by apply (parse_loop_plain str_mod main_py args []). }
    rewrite Hr. split; [|done]. split; [done | by intros ?%Hno].
Qed.

Lemma parse_arguments_names_in_order_witness :
  parse_arguments main_py (fun _ _ => Raise ValueError) ["ping"; " deploy "]
  = Ok [("ping", [], ∅, []); (" deploy ", [], ∅, [])]
  /\ map (fun inv : invocation => inv.1.1.1)
       [("ping", [], ∅, []); (" deploy ", [], ∅, []) : invocation]
     = map (fun t => (str_partition t ":").1.1) ["ping"; " deploy "].
Proof.
  assert (H : parse_arguments main_py (fun _ _ => Raise ValueError) ["ping"; " deploy "]
              = Ok [("ping", [], ∅, []); (" deploy ", [], ∅, [])]).
  { reflexivity. }
  split; [exact H|].
  exact (parse_arguments_names_in_order main_py (fun _ _ => Raise ValueError)
           ["ping"; " deploy "] _ H).
Defined.

(** ** [load_settings]: further properties *)

(** X6.  Every entry of the mapping [load_settings] returns comes from a line of
    the file that does not start with [#], and neither its key nor its
    value has whitespace left at either end. *)
Theorem settings_come_stripped_from_lines (fs : gmap string node) (path : string)
    (m : gmap string string) (k v : string) :
  load_settings fs path = Ok (Some m) ->
  m !! k = Some v ->
  strip k = k /\ strip v = v
  /\ exists content l,
       fs !! path = Some (File content) /\ l ∈ file_lines content
       /\ startswith "#" l = false /\ setting_of_line l = (k, v).
Proof.
  unfold load_settings, open_read.
  destruct (fs !! path) as [[content|]|] eqn:Hfs; simpl; [|done..].
  intros [= <-] Hk. apply dict_lookup_origin in Hk.
  apply list_elem_of_fmap in Hk as (l & Hl & Hin).
  apply list_elem_of_In, List.filter_In in Hin as [Hin Hc].
  apply list_elem_of_In in Hin.
  assert (Hhash : startswith "#" l = false).
  { unfold comments in Hc. apply andb_true_iff in Hc as [_ Hc].
    by apply negb_true_iff in Hc. }
  unfold setting_of_line in Hl.
  destruct (str_partition l "=") as [[k0 m0] v0] eqn:Hp.
  injection Hl as -> ->.
  split; [apply strip_idem|]. split; [apply strip_idem|].
  exists content, l. repeat split; try done.
  unfold setting_of_line. by rewrite Hp.
Qed.

(** X7.  Of the lines that give the same key the last one wins: a line that does
    not start with [#], and after which no such line gives its key again,
    binds its key to its value in the mapping returned. *)
Theorem settings_last_line_wins (fs : gmap string node) (path content : string)
    (before after : list string) (l : string) :
  fs !! path = Some (File content) ->
  file_lines content = before ++ l :: after ->
  startswith "#" l = false ->
  (forall l', l' ∈ after -> startswith "#" l' = false ->
              (setting_of_line l').1 <> (setting_of_line l).1) ->
  exists m, load_settings fs path = Ok (Some m)
            /\ m !! (setting_of_line l).1 = Some (setting_of_line l).2.
Proof.
  intros Hfs Hlines Hl Hafter.
  rewrite (load_settings_file _ _ _ Hfs). eexists. split; [done|].
  assert (Hne : truthy l = true).
  { apply (file_lines_nonempty content). rewrite Hlines.
    apply elem_of_app. right. by left. }
  rewrite Hlines, List.filter_app. cbn [List.filter].
  unfold comments at 2. rewrite Hne, Hl. cbn [andb negb].
  rewrite map_app. cbn [map].
  destruct (setting_of_line l) as [k v] eqn:Hkv. cbn [fst snd] in *.
  apply dict_lookup_last.
  intros Hin. apply list_elem_of_fmap in Hin as ([k' v'] & Hk' & Hin).
  simpl in Hk'. subst k'.
  apply list_elem_of_fmap in Hin as (l' & Hl' & Hin).
  apply list_elem_of_In, List.filter_In in Hin as [Hin Hc].
  apply list_elem_of_In in Hin.
  unfold comments in Hc. apply andb_true_iff in Hc as [_ Hc].
  apply negb_true_iff in Hc.
  apply (Hafter l' Hin Hc). by rewrite <- Hl'.
Qed.

Lemma settings_come_stripped_from_lines_witness :
  load_settings (<["rc" := File "# defaults
 user = deploy 
key
"]> ∅) "rc" = Ok (Some (<["key" := ""]> (<["user" := "deploy"]> ∅)))
  /\ (<["key" := ""]> (<["user" := "deploy"]> ∅) : gmap string string) !! "user"
     = Some "deploy"
  /\ strip "user" = "user" /\ strip "deploy" = "deploy"
  /\ exists content l,
       (<["rc" := File "# defaults
 user = deploy 
key
"]> ∅ : gmap string node) !! "rc" = Some (File content) /\ l ∈ file_lines content
       /\ startswith "#" l = false /\ setting_of_line l = ("user", "deploy").
Proof.
  assert (Hl : load_settings (<["rc" := File "# defaults
 user = deploy 
key
"]> ∅) "rc" = Ok (Some (<["key" := ""]> (<["user" := "deploy"]> ∅))))
    by (vm_compute; reflexivity).
  assert (Hk : (<["key" := ""]> (<["user" := "deploy"]> ∅) : gmap string string) !! "user"
               = Some "deploy") by reflexivity.
  split; [exact Hl|]. split; [exact Hk|].
  exact (settings_come_stripped_from_lines _ _ _ _ _ Hl Hk).
Defined.

Lemma settings_last_line_wins_witness :
  exists m, load_settings (<["rc" := File "user = deploy
#user = nobody
user=root=x
port = 22"]> ∅) "rc" = Ok (Some m)
            /\ m !! "user" = Some "root=x".
Proof.
  apply (settings_last_line_wins (<["rc" := File "user = deploy
#user = nobody
user=root=x
port = 22"]> ∅) "rc" "user = deploy
#user = nobody
user=root=x
port = 22" ["user = deploy
"; "#user = nobody
"] ["port = 22"] "user=root=x
").
  - reflexivity.
  - reflexivity.
  - reflexivity.
  - intros l' ->%list_elem_of_singleton _. discriminate.
Defined.

(** ** [find_fabfile]: further properties *)

Section FindMore.

Variable fs : gset (list string).

Lemma find_fabfile_root : find_fabfile fs [] = Some None.
Proof. done. Qed.

(** One round of the walk, seen from outside. *)
Lemma find_fabfile_step (d : list string) (c : string) :
  Forall plain_component (d ++ [c]) ->
  find_fabfile fs (d ++ [c])
  = if bool_decide ((d ++ [c]) ++ ["fabfile.py"] ∈ fs)
    then Some (Some ((d ++ [c]) ++ ["fabfile.py"]))
    else if bool_decide ((d ++ [c]) ++ ["Fabfile.py"] ∈ fs)
         then Some (Some ((d ++ [c]) ++ ["Fabfile.py"]))
         else find_fabfile fs d.
Proof.
  intros Hplain.
  assert (Hd : Forall plain_component d) by (by apply Forall_app in Hplain as [? _]).
  rewrite !find_fabfile_locate by done.
  rewrite rev_unit. cbn [locate]. rewrite <- rev_unit, rev_involutive.
  by repeat case_bool_decide.
Qed.

(** X8.  When the working directory holds neither candidate, the search gives
    what it gives from the parent directory. *)
Theorem find_fabfile_falls_back_to_parent (d : list string) (c : string) :
  Forall plain_component (d ++ [c]) ->
  (d ++ [c]) ++ ["fabfile.py"] ∉ fs ->
  (d ++ [c]) ++ ["Fabfile.py"] ∉ fs ->
  find_fabfile fs (d ++ [c]) = find_fabfile fs d.
Proof.
  intros Hplain H1 H2. rewrite find_fabfile_step by done.
  by rewrite !bool_decide_eq_false_2 by done.
Qed.

(** X9.  A candidate in the working directory is returned whatever the parent
    directories hold, and [fabfile.py] before [Fabfile.py]. *)
Theorem find_fabfile_prefers_cwd_and_lowercase (cwd : list string) :
  Forall plain_component cwd ->
  cwd <> [] ->
  (cwd ++ ["fabfile.py"] ∈ fs ->
   find_fabfile fs cwd = Some (Some (cwd ++ ["fabfile.py"])))
  /\ (cwd ++ ["fabfile.py"] ∉ fs -> cwd ++ ["Fabfile.py"] ∈ fs ->
      find_fabfile fs cwd = Some (Some (cwd ++ ["Fabfile.py"]))).
Proof.
  intros Hplain Hne. destruct (exists_last Hne) as (d & c & ->).
  rewrite find_fabfile_step by done. split.
  - intros H. by rewrite bool_decide_eq_true_2.
  - intros H1 H2. rewrite bool_decide_eq_false_2 by done.
    by rewrite bool_decide_eq_true_2.
Qed.

(** X10.  [None] is returned exactly when no directory from the working directory
    up to, but not including, the root holds a candidate. *)
Theorem find_fabfile_none_iff_no_candidate (cwd : list string) :
  Forall plain_component cwd ->
  find_fabfile fs cwd = Some None
  <-> (forall d rest g, cwd = d ++ rest -> d <> [] -> g ∈ guesses -> d ++ [g] ∉ fs).
Proof.
  induction cwd as [|c d IH] using rev_ind; intros Hplain.
  - split; [|done]. intros _ d rest g Hsplit Hd.
    symmetry in Hsplit. apply app_eq_nil in Hsplit as [-> _]. done.
  - assert (Hd : Forall plain_component d) by (by apply Forall_app in Hplain as [? _]).
    destruct (IH Hd) as [IH1 IH2]. rewrite find_fabfile_step by done. split.
    + repeat case_bool_decide; try done.
      intros Hnone. specialize (IH1 Hnone). clear Hnone. rename IH1 into Hnone.
      intros d' rest g Hsplit Hd' Hg.
      destruct rest as [|r rest _] using rev_ind.
      * rewrite app_nil_r in Hsplit. subst d'.
        unfold guesses in Hg. rewrite !elem_of_cons, elem_of_nil in Hg.
        destruct Hg as [->|[->|[]]]; done.
      * rewrite app_assoc in Hsplit. apply app_inj_tail in Hsplit as [-> _].
        by eapply Hnone.
    + intros Hall.
      rewrite !bool_decide_eq_false_2.
      * apply IH2. intros d' rest g -> Hd' Hg.
        apply (Hall d' (rest ++ [c]) g); [by rewrite app_assoc | done | done].
      * apply (Hall (d ++ [c]) [] "Fabfile.py"); [by rewrite app_nil_r | by destruct d |].
        unfold guesses. rewrite !elem_of_cons. auto.
      * apply (Hall (d ++ [c]) [] "fabfile.py"); [by rewrite app_nil_r | by destruct d |].
        unfold guesses. rewrite !elem_of_cons. auto.
Qed.

(** X11.  The path returned is the candidate nearest to the working directory:
    it exists, lies in a directory [d] on the way from the working
    directory to the root, the root excluded, is [Fabfile.py] only when
    [d] has no [fabfile.py], and no directory below [d] on that way holds a
    candidate. *)
Theorem find_fabfile_returns_nearest (cwd p : list string) :
  Forall plain_component cwd ->
  find_fabfile fs cwd = Some (Some p) ->
  exists d rest g,
    cwd = d ++ rest /\ d <> [] /\ g ∈ guesses /\ p = d ++ [g] /\ p ∈ fs
    /\ (g = "Fabfile.py" -> d ++ ["fabfile.py"] ∉ fs)
    /\ (forall pre post g', rest = pre ++ post -> pre <> [] -> g' ∈ guesses ->
                            (d ++ pre) ++ [g'] ∉ fs).
Proof.
  induction cwd as [|c d IH] using rev_ind; intros Hplain; [done|].
  assert (Hd : Forall plain_component d) by (by apply Forall_app in Hplain as [? _]).
  assert (Hne : d ++ [c] <> []) by (by destruct d).
  rewrite find_fabfile_step by done.
  case_bool_decide as H1; [|case_bool_decide as H2].
  - intros [= <-]. exists (d ++ [c]), [], "fabfile.py".
    rewrite app_nil_r. repeat split; try done.
    + unfold guesses. rewrite !elem_of_cons. auto.
    + intros pre post g' Hsplit Hpre.
      symmetry in Hsplit. apply app_eq_nil in Hsplit as [-> _]. done.
  - intros [= <-]. exists (d ++ [c]), [], "Fabfile.py".
    rewrite app_nil_r. repeat split; try done.
    + unfold guesses. rewrite !elem_of_cons. auto.
    + intros pre post g' Hsplit Hpre.
      symmetry in Hsplit. apply app_eq_nil in Hsplit as [-> _]. done.
  - intros Hfind. destruct (IH Hd Hfind) as (d0 & rest & g & -> & Hd0 & Hg & -> & Hin & Hlow & Hbelow).
    exists d0, (rest ++ [c]), g. rewrite app_assoc.
    repeat split; try done.
    intros pre post g' Hsplit Hpre Hg'.
    destruct post as [|x post _] using rev_ind.
    + rewrite app_nil_r in Hsplit. subst pre. rewrite app_assoc.
      unfold guesses in Hg'. rewrite !elem_of_cons, elem_of_nil in Hg'.
      destruct Hg' as [->|[->|[]]]; done.
    + rewrite app_assoc in Hsplit. apply app_inj_tail in Hsplit as [-> _].
      by eapply Hbelow.
Qed.

End FindMore.

Lemma find_fabfile_falls_back_to_parent_witness :
  find_fabfile {[ ["srv"; "fabfile.py"]; ["srv"; "app"; "README"] ]} (["srv"] ++ ["app"])
  = find_fabfile {[ ["srv"; "fabfile.py"]; ["srv"; "app"; "README"] ]} ["srv"].
Proof.
  apply (find_fabfile_falls_back_to_parent
           {[ ["srv"; "fabfile.py"]; ["srv"; "app"; "README"] ]} ["srv"] "app").
  - repeat constructor; discriminate.
  - vm_compute. intros H. by apply (bool_decide_pack _) in H.
  - vm_compute. intros H. by apply (bool_decide_pack _) in H.
Defined.

Lemma find_fabfile_prefers_cwd_and_lowercase_witness :
  find_fabfile
    {[ ["srv"; "app"; "Fabfile.py"]; ["srv"; "app"; "fabfile.py"]; ["srv"; "fabfile.py"] ]}
    ["srv"; "app"]
  = Some (Some (["srv"; "app"] ++ ["fabfile.py"])).
Proof.
  apply (proj1 (find_fabfile_prefers_cwd_and_lowercase
                  {[ ["srv"; "app"; "Fabfile.py"]; ["srv"; "app"; "fabfile.py"];
                     ["srv"; "fabfile.py"] ]}
                  ["srv"; "app"]
                  ltac:(repeat constructor; discriminate) ltac:(discriminate))).
  apply (bool_decide_unpack _). vm_compute. exact I.
Defined.

Lemma find_fabfile_none_iff_no_candidate_witness :
  find_fabfile {[ ["fabfile.py"]; ["srv"; "app"; "deploy.py"] ]} ["srv"; "app"] = Some None
  /\ ["srv"] ++ ["Fabfile.py"] ∉ ({[ ["fabfile.py"]; ["srv"; "app"; "deploy.py"] ]}
                                   : gset (list string)).
Proof.
  assert (H : find_fabfile {[ ["fabfile.py"]; ["srv"; "app"; "deploy.py"] ]} ["srv"; "app"]
              = Some None) by (vm_compute; reflexivity).
  split; [exact H|].
  apply (proj1 (find_fabfile_none_iff_no_candidate
                  {[ ["fabfile.py"]; ["srv"; "app"; "deploy.py"] ]} ["srv"; "app"]
                  ltac:(repeat constructor; discriminate)) H ["srv"] ["app"] "Fabfile.py").
  - reflexivity.
  - discriminate.
  - unfold guesses. rewrite !elem_of_cons. auto.
Defined.

Lemma find_fabfile_returns_nearest_witness :
  find_fabfile {[ ["srv"; "Fabfile.py"]; ["fabfile.py"] ]} ["srv"; "app"; "x"]
  = Some (Some ["srv"; "Fabfile.py"])
  /\ exists d rest g,
       ["srv"; "app"; "x"] = d ++ rest /\ d <> [] /\ g ∈ guesses
       /\ ["srv"; "Fabfile.py"] = d ++ [g]
       /\ ["srv"; "Fabfile.py"] ∈ ({[ ["srv"; "Fabfile.py"]; ["fabfile.py"] ]}
                                    : gset (list string))
       /\ (g = "Fabfile.py" ->
           d ++ ["fabfile.py"] ∉ ({[ ["srv"; "Fabfile.py"]; ["fabfile.py"] ]}
                                   : gset (list string)))
       /\ (forall pre post g', rest = pre ++ post -> pre <> [] -> g' ∈ guesses ->
             (d ++ pre) ++ [g'] ∉ ({[ ["srv"; "Fabfile.py"]; ["fabfile.py"] ]}
                                    : gset (list string))).
Proof.
  assert (H : find_fabfile {[ ["srv"; "Fabfile.py"]; ["fabfile.py"] ]} ["srv"; "app"; "x"]
              = Some (Some ["srv"; "Fabfile.py"])) by (vm_compute; reflexivity).
  split; [exact H|].
  exact (find_fabfile_returns_nearest
           {[ ["srv"; "Fabfile.py"]; ["fabfile.py"] ]} ["srv"; "app"; "x"] _
           ltac:(repeat constructor; discriminate) H).
Defined.

(** ** [load_fabfile]: further properties *)

Lemma truthy_app s c t : truthy (s +:+ String c t) = true.
Proof. by destruct s. Qed.

Lemma cut_last_slash_absent f :
  contains "/" f = false -> cut_last_slash f = (EmptyString, f).
Proof.
  induction f as [|a f IH]; [done|]. cbn [contains cut_last_slash].
  destruct (Ascii.eqb a "/"); [done|]. intros H. by rewrite (IH H).
Qed.

Lemma cut_last_slash_app d f :
  contains "/" f = false ->
  cut_last_slash (d +:+ String "/" f) = (d +:+ "/", f).
Proof.
  intros Hf. induction d as [|a d IH].
  - change (cut_last_slash (String "/" f) = ("/"%string, f)). cbn [cut_last_slash].
    by rewrite cut_last_slash_absent.
  - change (String a d +:+ String "/" f) with (String a (d +:+ String "/" f)).
    cbn [cut_last_slash]. rewrite IH.
    change (d +:+ "/") with (d +:+ String "/" EmptyString). by rewrite truthy_app.
Qed.

Lemma rstrip_slashes_app d : rstrip_slashes (d +:+ "/") = rstrip_slashes d.
Proof.
  induction d as [|a d IH]; [done|].
  change (String a d +:+ "/") with (String a (d +:+ "/")).
  cbn [rstrip_slashes]. by rewrite IH.
Qed.

Lemma all_slashes_app d : all_slashes (d +:+ "/") = all_slashes d.
Proof.
  induction d as [|a d IH]; [done|].
  change (String a d +:+ "/") with (String a (d +:+ "/")).
  cbn [all_slashes]. by rewrite IH.
Qed.

Lemma all_slashes_rstrip d : all_slashes d = true -> rstrip_slashes d = EmptyString.
Proof.
  induction d as [|a d IH]; [done|]. cbn [all_slashes rstrip_slashes].
  intros [Ha Hd]%andb_true_iff. by rewrite (IH Hd), Ha.
Qed.

(** [os.path.split] of a file in a directory that is written without a
    slash at its end. *)
Lemma os_path_split_file d f :
  d <> EmptyString -> rstrip_slashes d = d -> contains "/" f = false ->
  os_path_split (d +:+ String "/" f) = (d, f).
Proof.
  intros Hne Hd Hf. unfold os_path_split. rewrite cut_last_slash_app by done.
  change (d +:+ "/") with (d +:+ String "/" EmptyString) at 1. rewrite truthy_app.
  rewrite all_slashes_app, rstrip_slashes_app, Hd.
  destruct (all_slashes d) eqn:Hall; [|done].
  apply all_slashes_rstrip in Hall. congruence.
Qed.

Lemma rcut_absent c s : contains c s = false -> rcut c s = None.
Proof.
  induction s as [|a s IH]; [done|]. cbn [contains rcut].
  destruct (Ascii.eqb a c); [done|]. intros H. by rewrite (IH H).
Qed.

Lemma rcut_app c s t :
  contains c t = false -> rcut c (s +:+ String c t) = Some (s, t).
Proof.
  intros Ht. induction s as [|a s IH].
  - change (rcut c (String c t) = Some (EmptyString, t)). cbn [rcut].
    by rewrite rcut_absent, Ascii.eqb_refl.
  - change (String a s +:+ String c t) with (String a (s +:+ String c t)).
    cbn [rcut]. by rewrite IH.
Qed.

(** Trimming off the [.py]. *)
Lemma splitext_root_py b :
  contains "/" b = false -> all_dots b = false -> splitext_root (b +:+ ".py") = b.
Proof.
  intros Hb Hdots. unfold splitext_root.
  change (b +:+ ".py") with (b +:+ String "." "py").
  rewrite rcut_app by done. simpl. by rewrite rcut_absent, Hdots.
Qed.

Section LoadMore.

Variable import_ : string -> list string -> list string * result (list (string * pyobject)).

(** X13.  For the file [b.py] of directory [d], the module imported is [b], and
    the import runs with [d] put in front of [sys.path] when [d] was not
    on it. *)
Theorem load_fabfile_imports_named_module (d b : string) (sys_path : list string) :
  d <> EmptyString -> rstrip_slashes d = d ->
  contains "/" b = false -> all_dots b = false ->
  d ∉ sys_path ->
  load_fabfile import_ (d +:+ String "/" (b +:+ ".py")) sys_path
  = match import_ b (d :: sys_path) with
    | (sys_path', Raise e) => (sys_path', Raise e)
    | (sys_path', Ok imported) =>
        match sys_path' with
        | [] => ([], Raise IndexError)
        | _ :: sys_path'' => (sys_path'', Ok (callables imported))
        end
    end.
Proof.
  intros Hne Hd Hb Hdots Hin. unfold load_fabfile.
  rewrite os_path_split_file;
    [|done|done|by rewrite contains_app, Hb].
  rewrite bool_decide_eq_false_2 by done.
  by rewrite splitext_root_py by done.
Qed.

(** X14.  When the directory of the path is on [sys.path] already,
    [load_fabfile] neither adds to [sys.path] nor deletes from it:
    [sys.path] ends as the import leaves it, also when the import raises. *)
Theorem load_fabfile_leaves_listed_directory (path : string) (sys_path : list string)
    (directory fabfile : string) :
  os_path_split path = (directory, fabfile) ->
  directory ∈ sys_path ->
  (load_fabfile import_ path sys_path).1
  = (import_ (splitext_root fabfile) sys_path).1.
Proof.
  intros Hsplit Hin. rewrite (load_fabfile_on_path _ _ _ _ _ Hsplit Hin).
  by destruct (import_ _ _) as [sp [m|e]].
Qed.

Lemma callables_lookup imported name obj :
  callables imported !! name = Some obj ->
  is_callable obj = true /\ (name, obj) ∈ imported.
Proof.
  unfold callables. intros H%dict_lookup_origin.
  apply list_elem_of_In, List.filter_In in H as [Hin Hc].
  split; [done | by apply list_elem_of_In].
Qed.

Lemma filter_fst_NoDup {A B : Type} (P : A * B -> bool) (l : list (A * B)) :
  NoDup l.*1 -> NoDup (List.filter P l).*1.
Proof.
  induction l as [|x l IH]; [done|]. rewrite fmap_cons.
  intros [Hx Hl]%NoDup_cons. cbn [List.filter].
  destruct (P x); [|by apply IH].
  rewrite fmap_cons. apply NoDup_cons. split; [|by apply IH].
  intros Hin. apply Hx.
  apply list_elem_of_fmap in Hin as (y & -> & Hy).
  apply list_elem_of_fmap. exists y. split; [done|].
  apply list_elem_of_In, List.filter_In in Hy as [Hy _]. by apply list_elem_of_In.
Qed.

Lemma callables_complete imported name obj :
  NoDup imported.*1 ->
  (name, obj) ∈ imported -> is_callable obj = true ->
  callables imported !! name = Some obj.
Proof.
  intros Hnd Hin Hc. unfold callables.
  assert (Hin' : (name, obj) ∈ List.filter (fun x => is_callable x.2) imported).
  { apply list_elem_of_In, List.filter_In. split; [by apply list_elem_of_In | done]. }
  apply (filter_fst_NoDup (fun x => is_callable x.2)) in Hnd.
  apply list_elem_of_split in Hin' as (l1 & l2 & Heq).
  rewrite Heq in Hnd |- *. apply dict_lookup_last.
  rewrite fmap_app, fmap_cons in Hnd. apply NoDup_app in Hnd as (_ & _ & Hnd).
  by apply NoDup_cons in Hnd as [Hnd _].
Qed.

(** X15.  What [load_fabfile] returns, when it returns, holds the callable
    bindings of the imported module and nothing else. *)
Theorem load_fabfile_returns_callables_only (path : string) (sys_path sys_path' : list string)
    (m : gmap string pyobject) :
  load_fabfile import_ path sys_path = (sys_path', Ok m) ->
  exists sys_path0 sys_path1 imported,
    import_ (splitext_root (os_path_split path).2) sys_path0 = (sys_path1, Ok imported)
    /\ (forall name obj, m !! name = Some obj ->
                         is_callable obj = true /\ (name, obj) ∈ imported)
    /\ (NoDup imported.*1 ->
        forall name obj, (name, obj) ∈ imported -> is_callable obj = true ->
                         m !! name = Some obj).
Proof.
  unfold load_fabfile. destruct (os_path_split path) as [directory fabfile]. simpl.
  case_bool_decide.
  - destruct (import_ _ _) as [sp [imported|e]] eqn:Hi; [|done].
    intros [= _ <-]. exists sys_path, sp, imported. split; [done|]. split.
    + apply callables_lookup.
    + intros. by apply callables_complete.
  - destruct (import_ _ _) as [sp [imported|e]] eqn:Hi; [|done].
    destruct sp as [|x sp]; [done|].
    intros [= _ <-]. exists (directory :: sys_path), (x :: sp), imported.
    split; [done|]. split.
    + apply callables_lookup.
    + intros. by apply callables_complete.
Qed.

End LoadMore.

Lemma load_fabfile_imports_named_module_witness :
  load_fabfile
    (fun name sys_path =>
       (sys_path, if String.eqb name "fabfile"
                  then Ok [("deploy", PyObject true 1)] else Raise ImportError))
    ("/srv/app" +:+ String "/" ("fabfile" +:+ ".py")) ["/usr/lib/python"]
  = (["/usr/lib/python"], Ok (callables [("deploy", PyObject true 1)])).
Proof.
  apply (load_fabfile_imports_named_module
           (fun name sys_path =>
              (sys_path,
               if String.eqb name "fabfile"
               then Ok [("deploy", PyObject true 1)] else Raise ImportError))
           "/srv/app" "fabfile" ["/usr/lib/python"]).
  - discriminate.
  - reflexivity.
  - reflexivity.
  - reflexivity.
  - rewrite elem_of_cons, elem_of_nil. intros [H|[]]. discriminate H.
Defined.

Lemma load_fabfile_leaves_listed_directory_witness :
  (load_fabfile (import_raising SyntaxError) "/srv/app/fabfile.py"
     ["/usr/lib/python"; "/srv/app"]).1
  = (import_raising SyntaxError (splitext_root "fabfile.py")
       ["/usr/lib/python"; "/srv/app"]).1.
Proof.
  apply (load_fabfile_leaves_listed_directory (import_raising SyntaxError)
           "/srv/app/fabfile.py" ["/usr/lib/python"; "/srv/app"] "/srv/app" "fabfile.py").
  - reflexivity.
  - rewrite !elem_of_cons. auto.
Defined.

Lemma load_fabfile_returns_callables_only_witness :
  load_fabfile
    (import_returning [("deploy", PyObject true 1); ("VERSION", PyObject false 2)])
    "/srv/app/fabfile.py" ["/usr/lib/python"]
  = (["/usr/lib/python"],
     Ok (callables [("deploy", PyObject true 1); ("VERSION", PyObject false 2)]))
  /\ exists sys_path0 sys_path1 imported,
       import_returning [("deploy", PyObject true 1); ("VERSION", PyObject false 2)]
         (splitext_root (os_path_split "/srv/app/fabfile.py").2) sys_path0
       = (sys_path1, Ok imported)
       /\ (forall name obj,
             callables [("deploy", PyObject true 1); ("VERSION", PyObject false 2)] !! name
             = Some obj ->
             is_callable obj = true /\ (name, obj) ∈ imported)
       /\ (NoDup imported.*1 ->
           forall name obj, (name, obj) ∈ imported -> is_callable obj = true ->
             callables [("deploy", PyObject true 1); ("VERSION", PyObject false 2)] !! name
             = Some obj).
Proof.
  assert (H : load_fabfile
                (import_returning [("deploy", PyObject true 1); ("VERSION", PyObject false 2)])
                "/srv/app/fabfile.py" ["/usr/lib/python"]
              = (["/usr/lib/python"],
                 Ok (callables [("deploy", PyObject true 1); ("VERSION", PyObject false 2)])))
    by reflexivity.
  split; [exact H|].
  exact (load_fabfile_returns_callables_only _ _ _ _ _ H).
Defined.

(** ** [_AttributeDict.first] *)

Section FirstFacts.

Context {V : Type}.
Variable truth : V -> bool.

Implicit Types (self : gmap string V) (names : list string).

Lemma first_cons_passed self name names :
  passed_over truth self name -> first truth self (name :: names) = first truth self names.
Proof.
  intros Hp. cbn [first]. destruct (self !! name) as [w|] eqn:Hw; [|done].
  by rewrite (Hp w).
Qed.

(** X16.  [first] returns a value exactly when some name has a true value, and
    then the value of the first such name in the order given: names that
    are no keys, and keys with a false value, are passed over. *)
Theorem first_returns_first_true_value self names (v : V) :
  first truth self names = Some v
  <-> exists before name after,
        names = before ++ name :: after
        /\ Forall (passed_over truth self) before
        /\ self !! name = Some v /\ truth v = true.
Proof.
  split.
  - induction names as [|n names IH]; [done|]. cbn [first].
    destruct (self !! n) as [w|] eqn:Hw.
    + destruct (truth w) eqn:Ht.
      * intros [= ->]. by exists [], n, names.
      * intros (before & name & after & -> & Hb & Hv & Htv)%IH.
        exists (n :: before), name, after. repeat split; try done.
        constructor; [|done]. intros w' Hw'. congruence.
    + intros (before & name & after & -> & Hb & Hv & Htv)%IH.
      exists (n :: before), name, after. repeat split; try done.
      constructor; [|done]. intros w' Hw'. congruence.
  - intros (before & name & after & -> & Hb & Hv & Htv).
    induction Hb as [|n before Hn _ IH].
    + cbn [app first]. by rewrite Hv, Htv.
    + cbn [app]. by rewrite first_cons_passed.
Qed.

(** X17.  [first] returns [None] exactly when every name is passed over; a key
    whose value is false is treated like a key that is missing. *)
Theorem first_none_iff_all_passed_over self names :
  first truth self names = None <-> Forall (passed_over truth self) names.
Proof.
  induction names as [|n names IH]; [done|]. cbn [first]. split.
  - destruct (self !! n) as [w|] eqn:Hw.
    + destruct (truth w) eqn:Ht; [done|]. intros H%IH.
      constructor; [|done]. intros w' Hw'. congruence.
    + intros H%IH. constructor; [|done]. intros w' Hw'. congruence.
  - intros [Hn Hnames]%Forall_cons. apply IH in Hnames.
    destruct (self !! n) as [w|] eqn:Hw; [|done]. by rewrite (Hn w).
Qed.

End FirstFacts.

(** The example of the docstring of [_AttributeDict]. *)
Example first_docstring :
  first truthy (<["biz" := "baz"]> (<["foo" := "bar"]> ∅))
    ["wrong"; "incorrect"; "foo"; "biz"] = Some "bar".
Proof. reflexivity. Qed.

(** ** [list_commands] *)

Lemma length_append s t : String.length (s +:+ t) = String.length s + String.length t.
Proof. induction s as [|a s IH]; [done|]. simpl. by rewrite IH. Qed.

Lemma length_spaces n : String.length (spaces n) = n.
Proof. induction n as [|n IH]; [done|]. simpl. by rewrite IH. Qed.

Lemma length_ljust s width :
  String.length (ljust s width) = Nat.max (String.length s) width.
Proof. unfold ljust. rewrite length_append, length_spaces. lia. Qed.

Lemma max_len_acc keys n :
  fold_left (fun a b => Nat.max a (String.length b)) keys n
  = Nat.max n (max_len keys).
Proof.
  unfold max_len. revert n. induction keys as [|k keys IH]; intros n; simpl; [lia|].
  rewrite (IH (Nat.max n _)), (IH (String.length k)). lia.
Qed.

Lemma max_len_bound keys k : k ∈ keys -> String.length k <= max_len keys.
Proof.
  induction keys as [|k' keys IH]; [by intros ?%elem_of_nil|].
  unfold max_len. simpl. rewrite max_len_acc.
  intros [->|H]%elem_of_cons; [lia|]. apply IH in H. lia.
Qed.

Lemma splitlines_cr rest :
  splitlines (String "013" rest) = EmptyString :: splitlines (skip_line_feed rest).
Proof.
  destruct rest as [|b rest']; [reflexivity|].
  cbn [splitlines skip_line_feed].
  change (Ascii.eqb "013" "010") with false.
  change (Ascii.eqb "013" "013") with true. cbn iota.
  destruct (Ascii.eqb b "010") eqn:E; [done|].
  cbn [splitlines]. by rewrite E.
Qed.

Lemma only_breaks_skip rest : only_breaks (skip_line_feed rest) = only_breaks rest.
Proof.
  destruct rest as [|b rest']; [done|]. cbn [skip_line_feed].
  destruct (Ascii.eqb b "010") eqn:E; [|done].
  apply Ascii.eqb_eq in E. by subst.
Qed.

Lemma splitlines_breaks d :
  ((only_breaks d = true -> Forall (fun l => truthy l = false) (splitlines d))
   /\ (only_breaks d = false -> Exists (fun l => truthy l = true) (splitlines d)))
  /\ ((only_breaks d = true ->
       Forall (fun l => truthy l = false) (splitlines (skip_line_feed d)))
      /\ (only_breaks d = false ->
          Exists (fun l => truthy l = true) (splitlines (skip_line_feed d)))).
Proof.
  induction d as [|a rest [[IH1 IH2] [IH3 IH4]]]; [by repeat split|].
  assert (Hhere :
    (only_breaks (String a rest) = true ->
     Forall (fun l => truthy l = false) (splitlines (String a rest)))
    /\ (only_breaks (String a rest) = false ->
        Exists (fun l => truthy l = true) (splitlines (String a rest)))).
  { destruct (Ascii.eqb a "010") eqn:E1.
    { apply Ascii.eqb_eq in E1. subst a.
      change (only_breaks (String "010" rest)) with (only_breaks rest).
      change (splitlines (String "010" rest)) with (EmptyString :: splitlines rest).
      split; intros H; [constructor; [done | by apply IH1] | right; by apply IH2]. }
    destruct (Ascii.eqb a "013") eqn:E2.
    { apply Ascii.eqb_eq in E2. subst a.
      change (only_breaks (String "013" rest)) with (only_breaks rest).
      rewrite splitlines_cr.
      split; intros H; [constructor; [done | by apply IH3] | right; by apply IH4]. }
    cbn [only_breaks splitlines]. unfold is_break. rewrite E1, E2.
    split; [done|]. intros _. destruct (splitlines rest); by left. }
  split; [exact Hhere|].
  cbn [skip_line_feed]. destruct (Ascii.eqb a "010") eqn:E1; [|exact Hhere].
  apply Ascii.eqb_eq in E1. subst a.
  change (only_breaks (String "010" rest)) with (only_breaks rest). by split.
Qed.

(** A string has a line that is not empty unless it consists of line
    breaks. *)
Lemma no_line_iff_only_breaks d :
  List.filter truthy (splitlines d) = [] <-> only_breaks d = true.
Proof.
  destruct (splitlines_breaks d) as [[H1 H2] _]. split.
  - intros Hnil. destruct (only_breaks d); [done|].
    specialize (H2 eq_refl). apply Exists_exists in H2 as (l & Hl & Ht).
    assert (Hin : l ∈ List.filter truthy (splitlines d)).
    { apply list_elem_of_In, List.filter_In. split; [by apply list_elem_of_In | done]. }
    rewrite Hnil in Hin. by apply elem_of_nil in Hin.
  - intros H. specialize (H1 H). revert H1.
    generalize (splitlines d). intros ls Hall.
    induction Hall as [|l ls Hl _ IH]; [done|]. cbn [List.filter]. by rewrite Hl.
Qed.

Section ListFacts.

Variable doc : pyobject -> option string.

Lemma command_line_outcome width name func :
  (exists tail, command_line doc width name func = Ok (("  " +:+ ljust name width) +:+ tail)
                /\ ~ blank_doc doc func)
  \/ (command_line doc width name func = Raise IndexError /\ blank_doc doc func).
Proof.
  unfold command_line, blank_doc. destruct (doc func) as [d|] eqn:Hd.
  - destruct (truthy d) eqn:Ht.
    + destruct (List.filter truthy (splitlines d)) as [|l ls] eqn:Hl.
      * right. split; [done|]. exists d. repeat split; try done.
        by apply no_line_iff_only_breaks.
      * left. exists ("  " +:+ strip l). split; [done|].
        intros (d' & [= <-] & _ & Hb). apply no_line_iff_only_breaks in Hb. congruence.
    + left. exists EmptyString. split.
      * by rewrite append_empty_r.
      * intros (d' & [= <-] & Ht' & _). congruence.
  - left. exists EmptyString. split.
    + by rewrite append_empty_r.
    + by intros (d' & [=] & _).
Qed.

Lemma print_commands_outcome width items out :
  (exists lines,
      print_commands doc width items out = (out ++ lines, Ok tt)
      /\ Forall2 (fun item line =>
                    exists tail, line = ("  " +:+ ljust item.1 width) +:+ tail)
           items lines
      /\ Forall (fun item => ~ blank_doc doc item.2) items)
  \/ (exists out', print_commands doc width items out = (out', Raise IndexError)
                   /\ Exists (fun item => blank_doc doc item.2) items).
Proof.
  revert out. induction items as [|[name func] items IH]; intros out.
  - left. exists []. by rewrite app_nil_r.
  - cbn [print_commands].
    destruct (command_line_outcome width name func) as [(tail & -> & Hnb)|[-> Hb]].
    + destruct (IH (out ++ [("  " +:+ ljust name width) +:+ tail]))
        as [(lines & -> & Hlines & Hall)|(out' & -> & Hex)].
      * left. exists ((("  " +:+ ljust name width) +:+ tail) :: lines).
        rewrite <- app_assoc. repeat split; try done.
        -- constructor; [by exists tail | done].
        -- by constructor.
      * right. exists out'. split; [done | by right].
    + right. exists out. split; [done | by left].
Qed.

(** X18.  [list_commands] ends in [sys.exit(0)], having printed the heading and
    one line per command in the order of the commands, unless a command
    has a docstring that is not empty and holds line breaks only: then it
    raises [IndexError].  Every line starts with two spaces and the name
    padded to the length of the longest name, so that the descriptions
    start in one column. *)
Theorem list_commands_lines_or_IndexError (items : list (string * pyobject)) :
  (exists lines,
      list_commands doc items = ("Available commands:
" :: lines, SystemExit 0)
      /\ Forall2 (fun item line =>
                    exists tail,
                      line = ("  " +:+ ljust item.1 (max_len items.*1)) +:+ tail
                      /\ String.length ("  " +:+ ljust item.1 (max_len items.*1))
                         = 2 + max_len items.*1)
           items lines
      /\ Forall (fun item => ~ blank_doc doc item.2) items)
  \/ (exists out, list_commands doc items = (out, Exception IndexError)
                  /\ Exists (fun item => blank_doc doc item.2) items).
Proof.
  unfold list_commands.
  destruct (print_commands_outcome (max_len (map fst items)) items ["Available commands:
"]) as [(lines & -> & Hlines & Hall)|(out' & -> & Hex)].
  - left. exists lines. repeat split; try done.
    apply Forall2_same_length_lookup. split; [by eapply Forall2_length|].
    intros i item line Hi Hl.
    destruct (Forall2_lookup_lr _ _ _ _ _ _ Hlines Hi Hl) as (tail & ->).
    exists tail. split; [done|].
    rewrite length_append, length_ljust. simpl.
    assert (String.length item.1 <= max_len items.*1); [|lia].
    apply max_len_bound. apply list_elem_of_fmap. exists item. split; [done|].
    by eapply list_elem_of_lookup_2.
  - right. by exists out'.
Qed.

End ListFacts.

(** ** [find_fabfile] returns from every working directory *)

Lemma removelast_shorter (d : list string) :
  d <> [] -> length (removelast d) < length d.
Proof.
  intros Hne. destruct (exists_last Hne) as (d' & c & ->).
  rewrite removelast_last, length_app. simpl. lia.
Qed.

Lemma normpath_length comps acc :
  length (fold_left normpath_step comps acc) <= length acc + length comps.
Proof.
  revert acc. induction comps as [|c comps IH]; intros acc; simpl; [lia|].
  specialize (IH (normpath_step acc c)).
  assert (length (normpath_step acc c) <= S (length acc)); [|lia].
  unfold normpath_step. repeat case_bool_decide; simpl; try lia.
  - destruct (decide (acc = [])) as [->|Hne]; [simpl; lia|].
    pose proof (removelast_shorter acc Hne). lia.
  - rewrite length_app. simpl. lia.
Qed.

Lemma abspath_dots cwd n :
  abspath cwd (repeat ".." n ++ ["."])
  = Nat.iter n (@removelast string) (fold_left normpath_step cwd []).
Proof. unfold abspath. rewrite fold_left_app. apply normpath_dots. Qed.

Lemma find_fabfile_loop_total fs cwd fuel n :
  length (Nat.iter n (@removelast string) (fold_left normpath_step cwd [])) < fuel ->
  is_Some (find_fabfile_loop fs cwd fuel (repeat ".." n ++ ["."])).
Proof.
  revert n. induction fuel as [|fuel IH]; intros n Hlen; [lia|].
  cbn [find_fabfile_loop]. rewrite abspath_dots.
  destruct (truthy (basename _)) eqn:Hb; [|by eexists].
  destruct (List.filter _ guesses) as [|g found]; [|by eexists].
  change (".." :: repeat ".." n ++ ["."]) with (repeat ".." (S n) ++ ["."]).
  apply IH. rewrite Nat.iter_succ.
  assert (Hne : Nat.iter n (@removelast string) (fold_left normpath_step cwd []) <> []).
  { intros Heq. by rewrite Heq in Hb. }
  pose proof (removelast_shorter _ Hne). lia.
Qed.

(** X12.  The loop of [find_fabfile] comes to an end whatever the working
    directory is written like. *)
Lemma find_fabfile_total fs cwd : is_Some (find_fabfile fs cwd).
Proof.
  unfold find_fabfile. change ["."] with (repeat ".." 0 ++ ["."]).
  apply find_fabfile_loop_total. simpl.
  pose proof (normpath_length cwd []). simpl in *. lia.
Qed.

(** ** [main] *)

Section MainFacts.

Variable win32 : bool.
Variable expanduser : string -> string.
Variable profile_folder : result string.
Variable abort : string -> list event * raised.
Variable settings_fs : gmap string node.
Variable tree : gset (list string).
Variable cwd : list string.
Variable import_ : string -> list string -> list string * result (list (string * pyobject)).
Variable doc : pyobject -> option string.

(** X19.  With the version option, [main] prints the version held by the
    environment and exits with status 0; it reads no settings, looks for
    no fabfile, imports nothing, and leaves the state as it was. *)
Theorem main_shows_version_and_stops (options : Options.t) (st : state) (v : string) :
  Options.show_version options = true ->
  st_env st !! "version" = Some v ->
  main win32 expanduser profile_folder abort settings_fs tree cwd import_ doc options st
  = (st, [Stdout ("Fabric " +:+ v)], SystemExit 0).
Proof.
  intros Ho Hv. unfold main, main_try, __getattr__. by rewrite Ho, Hv.
Qed.

(** X20.  Without the version option and with no file at the settings path,
    [main] ends with status 1 on the [TypeError] of [env.update(None)]:
    the traceback is all it writes, the environment is not changed, and
    no fabfile is looked for or imported. *)
Theorem main_fails_without_settings_file (options : Options.t) (st : state) (rc : string) :
  Options.show_version options = false ->
  rc_path win32 expanduser profile_folder (st_env st) = Ok rc ->
  settings_fs !! rc = None ->
  main win32 expanduser profile_folder abort settings_fs tree cwd import_ doc options st
  = (st, [Excepthook TypeError], SystemExit 1).
Proof.
  intros Ho Hrc Hfs. unfold main, main_try. rewrite Ho, Hrc. simpl.
  unfold main_load_settings. by rewrite load_settings_missing.
Qed.

End MainFacts.

Lemma main_shows_version_and_stops_witness :
  main false (fun p => "/home/u" +:+ String.substring 1 (String.length p - 1) p) (Raise ImportError)
    (fun msg => ([Stdout msg], SystemExit 1)) ∅ ∅ ["srv"]
    (import_raising ImportError) (fun _ => None)
    {| Options.show_version := true; Options.list_commands := true |}
    (State env ∅ ["/usr/lib/python"])
  = (State env ∅ ["/usr/lib/python"], [Stdout ("Fabric " +:+ "0.2.0")], SystemExit 0).
Proof.
  exact (main_shows_version_and_stops false (fun p => "/home/u" +:+ String.substring 1 (String.length p - 1) p) (Raise ImportError)
           (fun msg => ([Stdout msg], SystemExit 1)) ∅ ∅ ["srv"]
           (import_raising ImportError) (fun _ => None)
           {| Options.show_version := true; Options.list_commands := true |}
           (State env ∅ ["/usr/lib/python"]) "0.2.0" eq_refl eq_refl).
Defined.

Lemma main_fails_without_settings_file_witness :
  main false (fun p => "/home/u" +:+ String.substring 1 (String.length p - 1) p) (Raise ImportError)
    (fun msg => ([Stdout msg], SystemExit 1)) ∅ {[ ["srv"; "fabfile.py"] ]} ["srv"]
    (import_returning [("deploy", PyObject true 1)]) (fun _ => None)
    {| Options.show_version := false; Options.list_commands := false |}
    (State env ∅ ["/usr/lib/python"])
  = (State env ∅ ["/usr/lib/python"], [Excepthook TypeError], SystemExit 1).
Proof.
  exact (main_fails_without_settings_file false (fun p => "/home/u" +:+ String.substring 1 (String.length p - 1) p)
           (Raise ImportError) (fun msg => ([Stdout msg], SystemExit 1)) ∅
           {[ ["srv"; "fabfile.py"] ]} ["srv"]
           (import_returning [("deploy", PyObject true 1)]) (fun _ => None)
           {| Options.show_version := false; Options.list_commands := false |}
           (State env ∅ ["/usr/lib/python"]) "/home/u/.fabricrc"
           eq_refl eq_refl eq_refl).
Defined.
